(** * Hulubedeje API: schemas, request validation and the CRUD handlers

    A shallow embedding of [schemas.py] (the twelve pydantic models) and of
    [main.py] (the FastAPI handlers), with the properties the specification
    states about them.

    Layout:
    - [Json]     values, Python dicts, truthiness;
    - [Schemas]  the field tables of [schemas.py] and the validation pydantic
                 runs over them;
    - [Gateway]  the world a request runs in (store handle, clock), the
                 handler monad and the two operations of [database.py];
    - [Api]      the handlers of [main.py];
    - the theorems. *)

From Stdlib Require Import ZArith NArith List String Ascii Bool Lia.
From Stdlib Require Import Floats.SpecFloat.
From stdpp Require Import base option list strings gmap pretty.

Import ListNotations.
Set Warnings "-register-all".
Local Open Scope string_scope.
Local Open Scope Z_scope.

(* ===================================================================== *)
(** ** Values and dicts *)
(* ===================================================================== *)

Module Json.

(** What a decoded JSON body, a model field or a stored document can hold.
    [VNone] is Python's [None] (JSON [null]); [VDate] carries
    [date.toordinal()], [VDateTime] the microseconds since the epoch of a naive
    UTC [datetime]; a dict keeps its keys in insertion order. *)
Inductive Value : Type :=
| VNone
| VBool (b : bool)
| VInt (z : Z)
| VFloat (f : spec_float)
| VStr (s : string)
| VDate (ordinal : Z)
| VDateTime (micros : Z)
| VList (l : list Value)
| VDict (d : list (string * Value)).

Abbreviation Dict := (list (string * Value)).

(** Python's [0.0]. *)
Definition float_zero : spec_float := S754_zero false.

(** [k in d] *)
Definition has_key (d : Dict) (k : string) : bool :=
  existsb (fun kv => String.eqb (fst kv) k) d.

(** [d[k]] when the key is there. *)
Fixpoint lookup_key (d : Dict) (k : string) : option Value :=
  match d with
  | [] => None
  | (k', v) :: d' => if String.eqb k' k then Some v else lookup_key d' k
  end.

(** [d.get(k)]: [None] for a key that is not there. *)
Definition dict_get (d : Dict) (k : string) : Value :=
  match lookup_key d k with
  | Some v => v
  | None => VNone
  end.

(** [d[k] = v]: the value of an existing key is replaced in place, a new key
    goes to the end. *)
Fixpoint dict_set (d : Dict) (k : string) (v : Value) : Dict :=
  match d with
  | [] => [(k, v)]
  | (k', v') :: d' =>
      if String.eqb k' k then (k, v) :: d' else (k', v') :: dict_set d' k v
  end.

(** [d.setdefault(k, v)], for its effect on [d]. *)
Definition dict_setdefault (d : Dict) (k : string) (v : Value) : Dict :=
  if has_key d k then d else dict_set d k v.

(** Equality of values, as a filter compares them. *)
Fixpoint value_eqb (a b : Value) : bool :=
  match a, b with
  | VNone, VNone => true
  | VBool x, VBool y => Bool.eqb x y
  | VInt x, VInt y => Z.eqb x y
  | VFloat x, VFloat y => SFeqb x y
  | VStr x, VStr y => String.eqb x y
  | VDate x, VDate y => Z.eqb x y
  | VDateTime x, VDateTime y => Z.eqb x y
  | VList xs, VList ys =>
      (fix all2 (xs ys : list Value) : bool :=
         match xs, ys with
         | [], [] => true
         | x :: xs', y :: ys' => value_eqb x y && all2 xs' ys'
         | _, _ => false
         end) xs ys
  | VDict xs, VDict ys =>
      (fix all2 (xs ys : Dict) : bool :=
         match xs, ys with
         | [], [] => true
         | (k, x) :: xs', (k', y) :: ys' =>
             String.eqb k k' && value_eqb x y && all2 xs' ys'
         | _, _ => false
         end) xs ys
  | _, _ => false
  end.

(** Python truthiness of an [Optional[str]]: [None] and [""] are falsy. *)
Definition truthy_str (o : option string) : bool :=
  match o with
  | None => false
  | Some s => negb (String.eqb s "")
  end.

End Json.
Export Json.

(* ===================================================================== *)
(** ** schemas.py *)
(* ===================================================================== *)

Module Schemas.

(** The twelve models; each maps to the collection named by the lowercase
    class name. *)
Inductive Kind : Type :=
| User | Patient | Doctor | Appointment | Medicine | Prescription | LabTest
| Invoice | Vital | BedAssignment | InventoryItem | MedicalRecord.

(** Annotations that name one Python type. *)
Inductive Scalar : Type :=
| TStr | TInt | TFloat | TBool | TDate | TDateTime | TEmailStr | TDictAny.

(** Field annotations: [T], [Literal[...]], [List[T]], [Optional[...]]. *)
Inductive FType : Type :=
| TScalar (s : Scalar)
| TLiteral (choices : list string)
| TList (elem : Scalar)
| TOptional (t : FType).

Inductive Factory : Type :=
| FactoryList      (* default_factory=list *)
| FactoryUtcnow.   (* default_factory=datetime.utcnow *)

(** The right-hand side of a field: nothing or [Field(...)] (required), a
    default value, or a default factory. *)
Inductive Default : Type :=
| Required
| DefaultValue (v : Value)
| DefaultFactory (f : Factory).

Record Field : Type := mkField
  { fname : string; ftype : FType; fdefault : Default }.

Definition str := TScalar TStr.
Definition opt (t : FType) := TOptional t.
Definition list_of_str := TList TStr.

Definition schema (k : Kind) : list Field :=
  match k with
  | User =>
      [ mkField "email" (TScalar TEmailStr) Required
      ; mkField "password_hash" str Required
      ; mkField "full_name" str Required
      ; mkField "role"
          (TLiteral ["admin"; "doctor"; "nurse"; "pharmacist"; "lab"; "patient"])
          Required
      ; mkField "phone" (opt str) (DefaultValue VNone)
      ; mkField "is_active" (TScalar TBool) (DefaultValue (VBool true))
      ; mkField "verified" (TScalar TBool) (DefaultValue (VBool false)) ]
  | Patient =>
      [ mkField "user_id" (opt str) (DefaultValue VNone)
      ; mkField "first_name" str Required
      ; mkField "last_name" str Required
      ; mkField "gender" (TLiteral ["male"; "female"; "other"]) Required
      ; mkField "dob" (opt (TScalar TDate)) (DefaultValue VNone)
      ; mkField "blood_group" (opt str) (DefaultValue VNone)
      ; mkField "address" (opt str) (DefaultValue VNone)
      ; mkField "city" (opt str) (DefaultValue VNone)
      ; mkField "country" (opt str) (DefaultValue (VStr "Ethiopia"))
      ; mkField "emergency_contact" (opt str) (DefaultValue VNone)
      ; mkField "medical_history" (opt list_of_str) (DefaultValue (VList []))
      ; mkField "allergies" (opt list_of_str) (DefaultValue (VList [])) ]
  | Doctor =>
      [ mkField "user_id" (opt str) (DefaultValue VNone)
      ; mkField "first_name" str Required
      ; mkField "last_name" str Required
      ; mkField "specialty" str Required
      ; mkField "bio" (opt str) (DefaultValue VNone)
      ; mkField "availability" (opt list_of_str) (DefaultValue (VList [])) ]
  | Appointment =>
      [ mkField "patient_id" str Required
      ; mkField "doctor_id" str Required
      ; mkField "date" (TScalar TDate) Required
      ; mkField "time_slot" str Required
      ; mkField "status" (TLiteral ["scheduled"; "completed"; "cancelled"])
          (DefaultValue (VStr "scheduled"))
      ; mkField "reason" (opt str) (DefaultValue VNone) ]
  | Medicine =>
      [ mkField "name" str Required
      ; mkField "sku" (opt str) (DefaultValue VNone)
      ; mkField "description" (opt str) (DefaultValue VNone)
      ; mkField "quantity" (TScalar TInt) (DefaultValue (VInt 0))
      ; mkField "price" (TScalar TFloat) (DefaultValue (VFloat float_zero))
      ; mkField "expires_on" (opt (TScalar TDate)) (DefaultValue VNone) ]
  | Prescription =>
      [ mkField "patient_id" str Required
      ; mkField "doctor_id" str Required
      ; mkField "medicines" (TList TDictAny) (DefaultFactory FactoryList)
      ; mkField "notes" (opt str) (DefaultValue VNone) ]
  | LabTest =>
      [ mkField "patient_id" str Required
      ; mkField "doctor_id" str Required
      ; mkField "test_type" str Required
      ; mkField "status" (TLiteral ["requested"; "in_progress"; "completed"])
          (DefaultValue (VStr "requested"))
      ; mkField "result_url" (opt str) (DefaultValue VNone) ]
  | Invoice =>
      [ mkField "patient_id" str Required
      ; mkField "amount" (TScalar TFloat) Required
      ; mkField "items" (TList TDictAny) (DefaultFactory FactoryList)
      ; mkField "paid" (TScalar TBool) (DefaultValue (VBool false))
      ; mkField "method" (opt str) (DefaultValue VNone) ]
  | Vital =>
      [ mkField "patient_id" str Required
      ; mkField "temperature_c" (opt (TScalar TFloat)) (DefaultValue VNone)
      ; mkField "pulse_bpm" (opt (TScalar TInt)) (DefaultValue VNone)
      ; mkField "blood_pressure" (opt str) (DefaultValue VNone)
      ; mkField "respiration_rate" (opt (TScalar TInt)) (DefaultValue VNone)
      ; mkField "notes" (opt str) (DefaultValue VNone) ]
  | BedAssignment =>
      [ mkField "patient_id" str Required
      ; mkField "ward" str Required
      ; mkField "bed_number" str Required
      ; mkField "assigned_on" (TScalar TDateTime) (DefaultFactory FactoryUtcnow) ]
  | InventoryItem =>
      [ mkField "name" str Required
      ; mkField "category" (opt str) (DefaultValue VNone)
      ; mkField "quantity" (TScalar TInt) (DefaultValue (VInt 0))
      ; mkField "threshold" (TScalar TInt) (DefaultValue (VInt 5))
      ; mkField "location" (opt str) (DefaultValue VNone) ]
  | MedicalRecord =>
      [ mkField "patient_id" str Required
      ; mkField "visit_date" (TScalar TDateTime) (DefaultFactory FactoryUtcnow)
      ; mkField "complaints" (opt str) (DefaultValue VNone)
      ; mkField "diagnosis" (opt str) (DefaultValue VNone)
      ; mkField "treatment" (opt str) (DefaultValue VNone)
      ; mkField "documents" (opt list_of_str) (DefaultValue (VList [])) ]
  end.

(** The collection a model maps to: the lowercase class name. *)
Definition collection_name (k : Kind) : string :=
  match k with
  | User => "user" | Patient => "patient" | Doctor => "doctor"
  | Appointment => "appointment" | Medicine => "medicine"
  | Prescription => "prescription" | LabTest => "labtest"
  | Invoice => "invoice" | Vital => "vital"
  | BedAssignment => "bedassignment" | InventoryItem => "inventoryitem"
  | MedicalRecord => "medicalrecord"
  end.

Definition required_fields (k : Kind) : list string :=
  map fname
    (List.filter
       (fun f => match fdefault f with Required => true | _ => false end)
       (schema k)).

(** Why a field is refused. *)
Inductive Reason : Type := Missing | WrongType | NotInEnum | MalformedFormat.

Abbreviation FieldErrors := (list (string * Reason)).

(** *** Validation

    The models are plain [BaseModel]s, so what validation does with a field is
    fixed by the tables above: a key that is absent takes the default or is
    reported missing, [None] is accepted by an [Optional], a [Literal] accepts
    its choices and nothing else, a list is validated element by element, and
    a value that already has the annotated Python type is kept as it is.
    Everything else pydantic may accept (a number for a [float] given as an
    integer or a string, the text forms of [date] and [datetime], which
    strings are e-mail addresses) is its own conversion table: it is the
    parameter [lax] of this section, and every result below holds for any. *)
Section Validation.

Variable lax : Scalar -> Value -> option Value.

(** The reading of [datetime.utcnow] a default factory takes. *)
Variable now : Z.

Definition refusal (s : Scalar) (v : Value) : Reason :=
  match s, v with
  | (TEmailStr | TDate | TDateTime), VStr _ => MalformedFormat
  | _, _ => WrongType
  end.

Definition convert (s : Scalar) (v : Value) : Reason + Value :=
  match s, v with
  | TStr, VStr _ | TInt, VInt _ | TFloat, VFloat _ | TBool, VBool _
  | TDictAny, VDict _ => inr v
  | _, _ =>
      match lax s v with
      | Some v' => inr v'
      | None => inl (refusal s v)
      end
  end.

Fixpoint convert_all (s : Scalar) (l : list Value) : Reason + list Value :=
  match l with
  | [] => inr []
  | v :: l' =>
      match convert s v, convert_all s l' with
      | inr v', inr l'' => inr (v' :: l'')
      | inl r, _ => inl r
      | _, inl r => inl r
      end
  end.

Fixpoint check (t : FType) (v : Value) : Reason + Value :=
  match t with
  | TScalar s => convert s v
  | TLiteral choices =>
      match v with
      | VStr s => if existsb (String.eqb s) choices then inr v else inl NotInEnum
      | _ => inl NotInEnum
      end
  | TList elem =>
      match v with
      | VList l =>
          match convert_all elem l with
          | inr l' => inr (VList l')
          | inl r => inl r
          end
      | _ => inl WrongType
      end
  | TOptional t' =>
      match v with
      | VNone => inr VNone
      | _ => check t' v
      end
  end.

Definition run_factory (f : Factory) : Value :=
  match f with
  | FactoryList => VList []
  | FactoryUtcnow => VDateTime now
  end.

Definition validate_field (payload : Dict) (f : Field) : Reason + Value :=
  match lookup_key payload (fname f) with
  | Some v => check (ftype f) v
  | None =>
      match fdefault f with
      | Required => inl Missing
      | DefaultValue v => inr v
      | DefaultFactory fac => inr (run_factory fac)
      end
  end.

(** All fields are visited in declaration order; the errors of all of them
    are collected, and the record keeps the declaration order. Keys of the
    payload that name no field are ignored. *)
Fixpoint validate_fields (fs : list Field) (payload : Dict)
  : FieldErrors * Dict :=
  match fs with
  | [] => ([], [])
  | f :: fs' =>
      let (errs, rec) := validate_fields fs' payload in
      match validate_field payload f with
      | inl r => ((fname f, r) :: errs, rec)
      | inr v => (errs, (fname f, v) :: rec)
      end
  end.

(** Building the model from a payload: the canonical record, or the field
    errors. *)
Definition validate (k : Kind) (payload : Dict) : FieldErrors + Dict :=
  match validate_fields (schema k) payload with
  | ([], rec) => inr rec
  | (errs, _) => inl errs
  end.

(** Whether validating [payload] reads the clock: a [utcnow] factory runs. *)
Definition reads_clock (k : Kind) (payload : Dict) : bool :=
  existsb
    (fun f =>
       match fdefault f with
       | DefaultFactory FactoryUtcnow => negb (has_key payload (fname f))
       | _ => false
       end)
    (schema k).

End Validation.

(** No conversion beyond the annotated type: the instance used to evaluate
    [validate] on payloads that need none. *)
Definition no_lax : Scalar -> Value -> option Value := fun _ _ => None.

End Schemas.
Export Schemas.

(* ===================================================================== *)
(** ** The world of a request and the document gateway *)
(* ===================================================================== *)

Module Gateway.

(** Modelled from the spec: the store behind the handle of [database.py],
    "the storage-side grouping of all documents of one resource kind": the
    documents of each collection in insertion order, and the counter the next
    identifier is made from. *)
Record Store : Type := mkStore
  { collections : gmap string (list Dict); next_id : N }.

(** What a handler can see and change: [database.db] ([None] when no
    connection was made) and the clock, as the sequence of readings
    [datetime.utcnow()] returns, with the number of readings taken so far. *)
Record World : Type := mkWorld
  { db : option Store; utc : nat -> Z; tick : nat }.

(** What a handler can raise, with the status FastAPI answers. *)
Inductive Exn : Type :=
| HTTPException (status_code : Z) (detail : string)
| RequestValidationError (errors : FieldErrors)
| StoreUnavailable
| NotImplementedError.

Definition status_of (e : Exn) : Z :=
  match e with
  | HTTPException status_code _ => status_code
  | RequestValidationError _ => 422
  | StoreUnavailable => 500
  | NotImplementedError => 500
  end.

Inductive Result (A : Type) : Type :=
| Ok (a : A)
| Raise (e : Exn).
Arguments Ok {A} a.
Arguments Raise {A} e.

(** Handlers: state passing over the world, with exceptions. *)
Definition M (A : Type) : Type := World -> Result A * World.

#[export] Instance M_ret : MRet M := fun A a w => (Ok a, w).

#[export] Instance M_bind : MBind M := fun A B f c w =>
  match c w with
  | (Ok a, w') => f a w'
  | (Raise e, w') => (Raise e, w')
  end.

#[export] Instance M_fmap : FMap M := fun A B f c w =>
  match c w with
  | (Ok a, w') => (Ok (f a), w')
  | (Raise e, w') => (Raise e, w')
  end.

Definition raise {A : Type} (e : Exn) : M A := fun w => (Raise e, w).

Definition get_db : M (option Store) := fun w => (Ok (db w), w).

Definition put_store (st : Store) : M unit :=
  fun w => (Ok tt, mkWorld (Some st) (utc w) (tick w)).

(** [datetime.utcnow()] *)
Definition utcnow : M Z :=
  fun w => (Ok (utc w (tick w)), mkWorld (db w) (utc w) (S (tick w))).

(** [db[collection_name]] *)
Definition collection (st : Store) (collection_name : string) : list Dict :=
  default [] (collections st !! collection_name).

(** Modelled from the spec: the filter of [database.get_documents], "records
    whose fields match all key/value pairs in filter (empty filter matches
    all)". *)
Definition matches (filter_dict : Dict) (doc : Dict) : bool :=
  forallb
    (fun kv =>
       match lookup_key doc (fst kv) with
       | Some v => value_eqb v (snd kv)
       | None => false
       end)
    filter_dict.

(** Modelled from the spec: the text of a "store-generated identifier" of
    [database.create_document], unique by the counter. *)
Definition object_id (n : N) : string := pretty n.

(** Modelled from the spec: a document as [database.create_document] stores
    it, with "creation/update timestamps if not already set" and the
    generated identifier. *)
Definition stored_document (data : Dict) (now : Z) (inserted_id : string)
  : Dict :=
  let data := dict_setdefault data "created_at" (VDateTime now) in
  let data := dict_setdefault data "updated_at" (VDateTime now) in
  dict_set data "_id" (VStr inserted_id).

(** Modelled from the spec: the store of [database.py] after one more
    document went into a collection. *)
Definition store_with (st : Store) (collection_name : string) (doc : Dict)
  : Store :=
  mkStore
    (<[collection_name := (collection st collection_name ++ [doc])%list]>
       (collections st))
    (N.succ (next_id st)).

(** Modelled from the spec: [database.create_document], of which [main.py]
    has only the import. "insert(kind, record) -> Identifier | StoreError:
    persists one validated record into the kind's collection, assigns
    server-generated creation/update timestamps if not already set, and
    returns a newly generated unique identifier"; without a connection the
    operation fails with StoreUnavailable. *)
Definition create_document (collection_name : string) (data : Dict)
  : M string :=
  d ← get_db;
  match d with
  | None => raise StoreUnavailable
  | Some st =>
      now ← utcnow;
      let inserted_id := object_id (next_id st) in
      _ ← put_store
            (store_with st collection_name
               (stored_document data now inserted_id));
      mret inserted_id
  end.

(** Modelled from the spec: [database.get_documents], of which [main.py]
    has only the import. "list(kind, filter, limit): returns up to limit
    records of the given kind whose fields match all key/value pairs in
    filter (empty filter matches all)"; the spec leaves the order to the
    store, and the model lists in insertion order; "absence of
    matches is not an error, it yields an empty sequence"; without a
    connection the operation fails with StoreUnavailable. *)
Definition get_documents (collection_name : string) (filter_dict : Dict)
    (limit : nat) : M (list Dict) :=
  d ← get_db;
  match d with
  | None => raise StoreUnavailable
  | Some st =>
      mret (take limit
              (List.filter (matches filter_dict)
                 (collection st collection_name)))
  end.

End Gateway.
Export Gateway.

(* ===================================================================== *)
(** ** main.py *)
(* ===================================================================== *)

Module LoginRequest.
Record t : Type := make { email : string; password : string }.
End LoginRequest.

Module SignupRequest.
Record t : Type := make
  { email : string; password : string; full_name : string; role : string }.
End SignupRequest.

Module Api.

(** [bool(db)], as [if db] and [if not db] take it. [None] is falsy. A handle
    is the driver's database object (the one [test_database] calls
    [list_collection_names] on and tests with [is not None]); it does not
    implement truth value testing, and asking for it raises. *)
Definition truthy_db (d : option Store) : M bool :=
  match d with
  | Some _ => raise NotImplementedError
  | None => mret false
  end.

Definition of_optional_str (o : option string) : Value :=
  match o with
  | Some s => VStr s
  | None => VNone
  end.

(** A list of documents as a response body. *)
Definition documents (docs : list Dict) : Value := VList (map VDict docs).

Definition read_root : M Value :=
  mret (VDict [("name", VStr "Hulubedeje"); ("status", VStr "ok")]).

(** *** Auth *)

Definition login (payload : LoginRequest.t) : M Value :=
  d ← get_db;
  truthy ← truthy_db d;
  users ← (if truthy : bool
           then get_documents "user"
                  [("email", VStr (LoginRequest.email payload))] 1%nat
           else mret []);
  match users with
  | [] => raise (HTTPException 401 "Invalid credentials")
  | user :: _ =>
      mret (VDict
              [ ("message", VStr "Logged in")
              ; ("role", dict_get user "role")
              ; ("user", VDict [ ("email", dict_get user "email")
                               ; ("full_name", dict_get user "full_name") ]) ])
  end.

Definition signup (payload : SignupRequest.t) : M Value :=
  d ← get_db;
  truthy ← truthy_db d;
  if negb (truthy : bool)
  then raise (HTTPException 500 "Database not available")
  else
    exists_ ← get_documents "user"
                [("email", VStr (SignupRequest.email payload))] 1%nat;
    match exists_ with
    | _ :: _ => raise (HTTPException 400 "Email already registered")
    | [] =>
        created_at ← utcnow;
        updated_at ← utcnow;
        let doc :=
          [ ("email", VStr (SignupRequest.email payload))
          ; ("password_hash", VStr (SignupRequest.password payload))
          ; ("full_name", VStr (SignupRequest.full_name payload))
          ; ("role", VStr (SignupRequest.role payload))
          ; ("is_active", VBool true)
          ; ("verified", VBool false)
          ; ("created_at", VDateTime created_at)
          ; ("updated_at", VDateTime updated_at) ] in
        user_id ← create_document "user" doc;
        mret (VDict [ ("message", VStr "Signup successful")
                    ; ("user_id", VStr user_id) ])
    end.

(** *** CRUD endpoints

    Each create handler receives the record validated against its model. *)

Definition create_patient (payload : Dict) : M Value :=
  patient_id ← create_document "patient" payload;
  mret (VDict [("id", VStr patient_id)]).

Definition list_patients : M Value :=
  documents <$> get_documents "patient" [] 100%nat.

Definition create_doctor (payload : Dict) : M Value :=
  doctor_id ← create_document "doctor" payload;
  mret (VDict [("id", VStr doctor_id)]).

Definition list_doctors : M Value :=
  documents <$> get_documents "doctor" [] 100%nat.

Definition create_appointment (payload : Dict) : M Value :=
  appt_id ← create_document "appointment" payload;
  mret (VDict [("id", VStr appt_id)]).

Definition list_appointments : M Value :=
  documents <$> get_documents "appointment" [] 100%nat.

Definition add_medicine (payload : Dict) : M Value :=
  med_id ← create_document "medicine" payload;
  mret (VDict [("id", VStr med_id)]).

Definition list_medicines : M Value :=
  documents <$> get_documents "medicine" [] 200%nat.

Definition add_prescription (payload : Dict) : M Value :=
  pid ← create_document "prescription" payload;
  mret (VDict [("id", VStr pid)]).

Definition list_prescriptions : M Value :=
  documents <$> get_documents "prescription" [] 100%nat.

Definition add_lab_test (payload : Dict) : M Value :=
  tid ← create_document "labtest" payload;
  mret (VDict [("id", VStr tid)]).

Definition list_lab_tests : M Value :=
  documents <$> get_documents "labtest" [] 100%nat.

Definition add_invoice (payload : Dict) : M Value :=
  iid ← create_document "invoice" payload;
  mret (VDict [("id", VStr iid)]).

Definition list_invoices : M Value :=
  documents <$> get_documents "invoice" [] 100%nat.

Definition add_vital (payload : Dict) : M Value :=
  vid ← create_document "vital" payload;
  mret (VDict [("id", VStr vid)]).

Definition list_vitals : M Value :=
  documents <$> get_documents "vital" [] 200%nat.

Definition add_bed_assignment (payload : Dict) : M Value :=
  bid ← create_document "bedassignment" payload;
  mret (VDict [("id", VStr bid)]).

Definition list_bed_assignments : M Value :=
  documents <$> get_documents "bedassignment" [] 200%nat.

Definition add_inventory_item (payload : Dict) : M Value :=
  iid ← create_document "inventoryitem" payload;
  mret (VDict [("id", VStr iid)]).

Definition list_inventory_items : M Value :=
  documents <$> get_documents "inventoryitem" [] 200%nat.

Definition add_medical_record (payload : Dict) : M Value :=
  rid ← create_document "medicalrecord" payload;
  mret (VDict [("id", VStr rid)]).

Definition list_medical_records (patient_id : option string) : M Value :=
  let filt :=
    if truthy_str patient_id
    then [("patient_id", of_optional_str patient_id)]
    else [] in
  documents <$> get_documents "medicalrecord" filt 200%nat.

(** *** Request bodies

    A handler whose parameter is annotated with a model runs only on a body
    that validates against it; FastAPI answers 422 otherwise, with the field
    errors, and the handler is not called. *)
Section Routes.

Variable lax : Scalar -> Value -> option Value.

Definition request_body (k : Kind) (body : Dict) : M Dict :=
  now ← utcnow;
  match validate lax now k body with
  | inr payload => mret payload
  | inl errors => raise (RequestValidationError errors)
  end.

Definition post (k : Kind) (handler : Dict -> M Value) (body : Dict)
  : M Value :=
  payload ← request_body k body;
  handler payload.

(** The POST routes that take a model of [schemas.py] as body. [User] is the
    body of none: signup takes a [SignupRequest]. *)
Definition create_routes : list (string * Kind * (Dict -> M Value)) :=
  [ ("/patients", Patient, create_patient)
  ; ("/doctors", Doctor, create_doctor)
  ; ("/appointments", Appointment, create_appointment)
  ; ("/pharmacy/medicines", Medicine, add_medicine)
  ; ("/pharmacy/prescriptions", Prescription, add_prescription)
  ; ("/lab/tests", LabTest, add_lab_test)
  ; ("/billing/invoices", Invoice, add_invoice)
  ; ("/nursing/vitals", Vital, add_vital)
  ; ("/nursing/bed-assignments", BedAssignment, add_bed_assignment)
  ; ("/inventory/items", InventoryItem, add_inventory_item)
  ; ("/ehr/records", MedicalRecord, add_medical_record) ].

End Routes.

End Api.
Export Api.

(* ===================================================================== *)
(** ** main.py: the diagnostic route and the route tables *)
(* ===================================================================== *)

Module Diagnostics.

(** Whether a byte continues a character of a text held as UTF-8. *)
Definition is_continuation (c : ascii) : bool :=
  match c with
  | Ascii _ _ _ _ _ _ b6 b7 => b7 && negb b6
  end.

(** [len(s)]: the characters of a text held as UTF-8. *)
Fixpoint str_len (s : string) : nat :=
  match s with
  | EmptyString => 0%nat
  | String c s' =>
      if is_continuation c then str_len s' else S (str_len s')
  end.

(** [s[:n]]: the first [n] characters. *)
Fixpoint str_prefix (n : nat) (s : string) : string :=
  match s with
  | EmptyString => EmptyString
  | String c s' =>
      if is_continuation c then String c (str_prefix n s')
      else
        match n with
        | O => EmptyString
        | S n' => String c (str_prefix n' s')
        end
  end.

(** Whether a text held as UTF-8 starts at the start of a character (or is
    empty). *)
Definition at_boundary (s : string) : bool :=
  match s with
  | EmptyString => true
  | String c _ => negb (is_continuation c)
  end.

(** [o or alt] for an [Optional[str]]. *)
Definition str_or (o : option string) (alt : string) : string :=
  match o with
  | Some s => if truthy_str o then s else alt
  | None => alt
  end.

(** [GET /test]. The environment and the driver are not of this program:
    [getenv] is [os.getenv], and [list_collection_names] is the driver's call
    on the handle, which returns the names or raises an exception with a
    text. Nothing else under the outer [try] raises, so its handler has
    nothing to catch. *)
Section TestDatabase.

Variable getenv : string -> option string.
Variable list_collection_names : Store -> string + list string.

Definition test_database : M Value :=
  d ← get_db;
  let response :=
    [ ("backend", VStr "✅ Running")
    ; ("database", VStr "❌ Not Available")
    ; ("database_url", VStr "❌ Not Set")
    ; ("database_name", VStr "❌ Not Set")
    ; ("connection_status", VStr "Not Connected")
    ; ("collections", VList []) ] in
  let response :=
    match d with
    | Some handle =>
        let response := dict_set response "database" (VStr "✅ Available") in
        let response :=
          dict_set response "database_url"
            (VStr (if truthy_str (getenv "DATABASE_URL")
                   then "✅ Set" else "❌ Not Set")) in
        let response :=
          dict_set response "database_name"
            (VStr (str_or (getenv "DATABASE_NAME") "❌ Not Set")) in
        match list_collection_names handle with
        | inr names =>
            let response :=
              dict_set response "collections"
                (VList (map VStr (take 20 names))) in
            let response :=
              dict_set response "database" (VStr "✅ Connected & Working") in
            dict_set response "connection_status" (VStr "Connected")
        | inl e =>
            dict_set response "database"
              (VStr ("⚠️ Connected but Error: " ++ str_prefix 100 e))
        end
    | None => dict_set response "database" (VStr "❌ Not Initialized")
    end in
  mret (VDict response).

End TestDatabase.

(** The GET routes that list a collection, with the model whose collection
    they read and their limit. *)
Definition list_routes : list (string * Kind * nat * M Value) :=
  [ ("/patients", Patient, 100%nat, list_patients)
  ; ("/doctors", Doctor, 100%nat, list_doctors)
  ; ("/appointments", Appointment, 100%nat, list_appointments)
  ; ("/pharmacy/medicines", Medicine, 200%nat, list_medicines)
  ; ("/pharmacy/prescriptions", Prescription, 100%nat, list_prescriptions)
  ; ("/lab/tests", LabTest, 100%nat, list_lab_tests)
  ; ("/billing/invoices", Invoice, 100%nat, list_invoices)
  ; ("/nursing/vitals", Vital, 200%nat, list_vitals)
  ; ("/nursing/bed-assignments", BedAssignment, 200%nat, list_bed_assignments)
  ; ("/inventory/items", InventoryItem, 200%nat, list_inventory_items)
  ; ("/ehr/records", MedicalRecord, 200%nat, list_medical_records None) ].

(** The driver listing the collections that hold a document. *)
Definition names_of_store (st : Store) : string + list string :=
  inr (map fst (map_to_list (collections st))).

(** A driver that cannot reach the server. *)
Definition unreachable (text : string) (st : Store) : string + list string :=
  inl text.

End Diagnostics.
Export Diagnostics.

(* ===================================================================== *)
(** ** Values of the annotated type *)
(* ===================================================================== *)

Module Conformance.

(** Whether a value is an instance of the Python type an annotation names,
    so that validation has nothing to convert. *)
Definition is_instance (s : Scalar) (v : Value) : bool :=
  match s, v with
  | TStr, VStr _ | TInt, VInt _ | TFloat, VFloat _ | TBool, VBool _
  | TDictAny, VDict _ => true
  | _, _ => false
  end.

Fixpoint has_type (t : FType) (v : Value) : bool :=
  match t with
  | TScalar s => is_instance s v
  | TLiteral choices =>
      match v with
      | VStr s => existsb (String.eqb s) choices
      | _ => false
      end
  | TList elem =>
      match v with
      | VList l => forallb (is_instance elem) l
      | _ => false
      end
  | TOptional t' =>
      match v with
      | VNone => true
      | _ => has_type t' v
      end
  end.

(** The keys the gateway writes besides the fields of the record. *)
Definition gateway_keys : list string := ["created_at"; "updated_at"; "_id"].

(** An exception text of 120 characters. *)
Definition long_text : string :=
  "ServerSelectionTimeoutError: localhost:27017: [Errno 111] Connection refused, Timeout: 30s, Topology Description: <none>".

(** An environment with the store's address and an empty name. *)
Definition half_set_env (name : string) : option string :=
  if String.eqb name "DATABASE_URL" then Some "mongodb://localhost:27017"
  else if String.eqb name "DATABASE_NAME" then Some ""
  else None.

End Conformance.
Export Conformance.

(* ===================================================================== *)
(** ** Sample requests and stores *)
(* ===================================================================== *)

Module Samples.

(** A connected, empty store; the clock reads 0, 1, 2, ... microseconds. *)
Definition empty_store : Store := mkStore ∅ 0%N.
Definition clock0 : nat -> Z := Z.of_nat.
Definition fresh_world : World := mkWorld (Some empty_store) clock0 0%nat.
Definition offline_world : World := mkWorld None clock0 0%nat.

Definition abebe : Dict :=
  [ ("first_name", VStr "Abebe"); ("last_name", VStr "Kebede")
  ; ("gender", VStr "male") ].

Definition paracetamol : Dict := [("name", VStr "Paracetamol")].

Definition bed_payload : Dict :=
  [("patient_id", VStr "p1"); ("ward", VStr "A"); ("bed_number", VStr "12")].

Definition pending_appointment : Dict :=
  [ ("patient_id", VStr "p1"); ("doctor_id", VStr "d1")
  ; ("date", VStr "2024-05-01"); ("time_slot", VStr "10:30-11:00")
  ; ("status", VStr "pending") ].


Definition record_of (patient_id : string) : Dict :=
  [("patient_id", VStr patient_id); ("_id", VStr "0")].

Definition ehr_store : Store :=
  mkStore {[ "medicalrecord" := [record_of "p1"] ]} 1%N.

Definition ehr_world : World := mkWorld (Some ehr_store) clock0 0%nat.

(** The record Abebe's payload validates to, and the store after it was
    posted to an empty one at clock reading 1. *)
Definition abebe_record : Dict :=
  [ ("user_id", VNone); ("first_name", VStr "Abebe")
  ; ("last_name", VStr "Kebede"); ("gender", VStr "male")
  ; ("dob", VNone); ("blood_group", VNone); ("address", VNone)
  ; ("city", VNone); ("country", VStr "Ethiopia")
  ; ("emergency_contact", VNone); ("medical_history", VList [])
  ; ("allergies", VList []) ].



End Samples.
Export Samples.

(* ===================================================================== *)
(** ** Facts about dicts *)
(* ===================================================================== *)

Section DictFacts.

Lemma has_key_lookup_key (d : Dict) (k : string) :
  has_key d k = false <-> lookup_key d k = None.
Proof.
  induction d as [|[k' v] d IH]; simpl; [tauto|].
  destruct (String.eqb k' k); simpl; [|exact IH].
  split; discriminate.
Qed.

Lemma value_eqb_str (v : Value) (s : string) :
  value_eqb v (VStr s) = true <-> v = VStr s.
Proof.
  destruct v; simpl; try (split; discriminate).
  rewrite String.eqb_eq. split; congruence.
Qed.

Lemma existsb_eqb_In (s : string) (l : list string) :
  existsb (String.eqb s) l = true <-> In s l.
Proof.
  rewrite existsb_exists. split.
  - intros (x & Hx & Heq). apply String.eqb_eq in Heq. now subst.
  - intros H. exists s. split; [exact H | apply String.eqb_refl].
Qed.

End DictFacts.

(* ===================================================================== *)
(** ** Facts about validation *)
(* ===================================================================== *)

Section ValidationFacts.

Variable lax : Scalar -> Value -> option Value.
Variable now : Z.

Lemma required_fields_spec (k : Kind) (n : string) :
  In n (required_fields k) <->
  exists f, In f (schema k) /\ fname f = n /\ fdefault f = Required.
Proof.
  unfold required_fields. rewrite in_map_iff. split.
  - intros (f & Hn & Hf). apply filter_In in Hf as [Hf Hreq].
    exists f. repeat split; auto. destruct (fdefault f); congruence.
  - intros (f & Hf & Hn & Hreq). exists f. split; [exact Hn|].
    apply filter_In. split; [exact Hf|]. now rewrite Hreq.
Qed.

(** The errors of a run are exactly the refusals of the fields. *)
Lemma validate_fields_errors (fs : list Field) (p : Dict) (n : string)
    (r : Reason) :
  In (n, r) (fst (validate_fields lax now fs p)) <->
  exists f, In f fs /\ fname f = n /\ validate_field lax now p f = inl r.
Proof.
  induction fs as [|f fs IH]; simpl.
  - split; [tauto | intros (f & [] & _)].
  - destruct (validate_fields lax now fs p) as [errs rec] eqn:E.
    simpl in IH.
    destruct (validate_field lax now p f) as [r'|v] eqn:Ef; simpl.
    + rewrite IH. split.
      * intros [Heq | (g & Hg & Hn & Hr)].
        -- inversion Heq; subst. exists f. auto.
        -- exists g. auto.
      * intros (g & [<- | Hg] & Hn & Hr).
        -- left. congruence.
        -- right. exists g. auto.
    + rewrite IH. split.
      * intros (g & Hg & Hn & Hr). exists g. auto.
      * intros (g & [<- | Hg] & Hn & Hr); [congruence|].
        exists g. auto.
Qed.

(** A refused field makes the whole validation fail, and is named. *)
Lemma validate_refused (k : Kind) (p : Dict) (f : Field) (r : Reason) :
  In f (schema k) ->
  validate_field lax now p f = inl r ->
  exists errors,
    validate lax now k p = inl errors /\ In (fname f, r) errors.
Proof.
  intros Hf Hr.
  assert (In (fname f, r) (fst (validate_fields lax now (schema k) p))) as Hin.
  { apply validate_fields_errors. exists f. auto. }
  unfold validate.
  destruct (validate_fields lax now (schema k) p) as [[|e errs] rec];
    simpl in Hin; [contradiction|].
  exists (e :: errs). auto.
Qed.

(** A run without errors has one entry per field, in declaration order. *)
Lemma validate_fields_accepted (fs : list Field) (p : Dict) (rec : Dict) :
  validate_fields lax now fs p = ([], rec) ->
  Forall2
    (fun f kv => fst kv = fname f /\ validate_field lax now p f = inr (snd kv))
    fs rec.
Proof.
  revert rec. induction fs as [|f fs IH]; simpl; intros rec H.
  - inversion H. constructor.
  - destruct (validate_fields lax now fs p) as [errs rec'] eqn:E.
    destruct (validate_field lax now p f) as [r|v] eqn:Ef;
      inversion H; subst.
    constructor; [simpl; auto | apply IH; reflexivity].
Qed.

Lemma validate_accepted (k : Kind) (p : Dict) (rec : Dict) :
  validate lax now k p = inr rec ->
  Forall2
    (fun f kv => fst kv = fname f /\ validate_field lax now p f = inr (snd kv))
    (schema k) rec.
Proof.
  unfold validate. intros H. apply validate_fields_accepted.
  destruct (validate_fields lax now (schema k) p) as [[|e errs] rec'];
    congruence.
Qed.

(** What a [Literal] lets through. *)
Lemma check_literal_accepts (choices : list string) (v v' : Value) :
  check lax (TLiteral choices) v = inr v' ->
  v' = v /\ exists s, v = VStr s /\ In s choices.
Proof.
  simpl. destruct v; try discriminate.
  destruct (existsb (String.eqb s) choices) eqn:E; [|discriminate].
  intros H. inversion H; subst. split; [reflexivity|].
  exists s. split; [reflexivity | now apply existsb_eqb_In].
Qed.

Lemma check_literal_refuses (choices : list string) (v : Value) :
  ~ (exists s, v = VStr s /\ In s choices) ->
  check lax (TLiteral choices) v = inl NotInEnum.
Proof.
  intros H. simpl. destruct v; try reflexivity.
  destruct (existsb (String.eqb s) choices) eqn:E; [|reflexivity].
  exfalso. apply H. exists s. split; [reflexivity | now apply existsb_eqb_In].
Qed.

End ValidationFacts.

Section ValidationFacts2.

Variable lax : Scalar -> Value -> option Value.
Variable now : Z.

Lemma validate_accepted_field (k : Kind) (p rec : Dict) (f : Field) :
  validate lax now k p = inr rec ->
  In f (schema k) ->
  exists v, validate_field lax now p f = inr v.
Proof.
  intros Hok Hf.
  destruct (validate_field lax now p f) as [r|v] eqn:E; [|eauto].
  destruct (validate_refused lax now k p f r Hf E) as (errors & Hbad & _).
  congruence.
Qed.

Lemma validate_field_absent_required (p : Dict) (f : Field) :
  lookup_key p (fname f) = None ->
  fdefault f = Required ->
  validate_field lax now p f = inl Missing.
Proof. intros Hp Hreq. unfold validate_field. now rewrite Hp, Hreq. Qed.

(** A [Literal] field given a value outside its choices is refused. *)
Lemma literal_refused (k : Kind) (payload : Dict) (f : Field)
    (choices : list string) (v : Value) :
  In f (schema k) ->
  ftype f = TLiteral choices ->
  lookup_key payload (fname f) = Some v ->
  ~ (exists s, v = VStr s /\ In s choices) ->
  exists errors,
    validate lax now k payload = inl errors
    /\ In (fname f, NotInEnum) errors.
Proof.
  intros Hf Ht Hv Hout.
  apply validate_refused; [exact Hf|].
  unfold validate_field. rewrite Hv, Ht.
  now apply check_literal_refuses.
Qed.

End ValidationFacts2.


(* ===================================================================== *)
(** ** Validation: required fields, enumerations, defaults, the clock *)
(* ===================================================================== *)

(** C2. For every model and every payload that lacks one of the model's
    required fields, validation fails and the errors name that field as
    missing; on each POST route that takes the model as body the request is
    answered with that validation error and the store is left as it was. *)
Theorem missing_required_field_rejected
    (lax : Scalar -> Value -> option Value) (k : Kind) (payload : Dict)
    (field : string) :
  In field (required_fields k) ->
  lookup_key payload field = None ->
  (forall now, exists errors,
      validate lax now k payload = inl errors /\ In (field, Missing) errors)
  /\
  (forall path handler w, In (path, k, handler) create_routes ->
     exists errors w',
       post lax k handler payload w = (Raise (RequestValidationError errors), w')
       /\ In (field, Missing) errors
       /\ db w' = db w).
Proof.
  intros Hreq Habsent.
  apply required_fields_spec in Hreq as (f & Hf & <- & Hr).
  assert (forall now, exists errors,
             validate lax now k payload = inl errors
             /\ In (fname f, Missing) errors) as Hfail.
  { intros now. apply validate_refused; [exact Hf|].
    now apply validate_field_absent_required. }
  split; [exact Hfail|].
  intros path handler w _.
  destruct (Hfail (utc w (tick w))) as (errors & Hv & Hin).
  exists errors, (mkWorld (db w) (utc w) (S (tick w))).
  repeat split; [|exact Hin].
  unfold post, request_body, mbind, M_bind, utcnow. now rewrite Hv.
Qed.

Lemma missing_required_field_rejected_witness :
  (forall now, exists errors,
      validate no_lax now Patient [("last_name", VStr "Kebede")] = inl errors
      /\ In ("first_name", Missing) errors)
  /\
  (forall path handler w, In (path, Patient, handler) create_routes ->
     exists errors w',
       post no_lax Patient handler [("last_name", VStr "Kebede")] w
       = (Raise (RequestValidationError errors), w')
       /\ In ("first_name", Missing) errors
       /\ db w' = db w).
Proof.
  apply (missing_required_field_rejected no_lax Patient
           [("last_name", VStr "Kebede")] "first_name").
  - simpl. auto.
  - reflexivity.
Defined.

(** C6. A field annotated with a [Literal] refuses every value that is not one
    of its choices, and the error names the field. For [Appointment.status]:
    "pending" is refused; a payload that gives a status is accepted only when
    the status is "scheduled", "completed" or "cancelled"; and none of these
    three is ever held against the status field. *)
Theorem enum_field_rejects_outsiders
    (lax : Scalar -> Value -> option Value) (now : Z) :
  (forall k payload f choices v,
      In f (schema k) ->
      ftype f = TLiteral choices ->
      lookup_key payload (fname f) = Some v ->
      ~ (exists s, v = VStr s /\ In s choices) ->
      exists errors,
        validate lax now k payload = inl errors
        /\ In (fname f, NotInEnum) errors)
  /\
  (forall payload,
      lookup_key payload "status" = Some (VStr "pending") ->
      exists errors,
        validate lax now Appointment payload = inl errors
        /\ In ("status", NotInEnum) errors)
  /\
  (forall payload v rec,
      lookup_key payload "status" = Some v ->
      validate lax now Appointment payload = inr rec ->
      v = VStr "scheduled" \/ v = VStr "completed" \/ v = VStr "cancelled")
  /\
  (forall payload s errors r,
      In s ["scheduled"; "completed"; "cancelled"] ->
      lookup_key payload "status" = Some (VStr s) ->
      validate lax now Appointment payload = inl errors ->
      In ("status", r) errors -> False).
Proof.
  pose proof (literal_refused lax now) as Hgen.
  pose (status :=
          mkField "status" (TLiteral ["scheduled"; "completed"; "cancelled"])
            (DefaultValue (VStr "scheduled"))).
  assert (In status (schema Appointment)) as Hstatus by (simpl; tauto).
  split; [exact Hgen|]. split; [|split].
  - intros payload Hp.
    apply (Hgen Appointment payload status _ _ Hstatus eq_refl Hp).
    intros (s & Hs & Hin). inversion Hs; subst s.
    simpl in Hin. intuition discriminate.
  - intros payload v rec Hp Hok.
    destruct (validate_accepted_field lax now _ _ _ status Hok Hstatus)
      as (v' & Hv').
    unfold validate_field in Hv'. simpl fname in Hv'. rewrite Hp in Hv'.
    apply check_literal_accepts in Hv' as (_ & s & -> & Hin).
    simpl in Hin. intuition (subst; auto).
  - intros payload s errors r Hs Hp Hbad Hin.
    assert (In ("status", r)
              (fst (validate_fields lax now (schema Appointment) payload)))
      as Hin'.
    { unfold validate in Hbad.
      destruct (validate_fields lax now (schema Appointment) payload)
        as [[|e errs] rec]; [discriminate|].
      inversion Hbad; subst. exact Hin. }
    apply validate_fields_errors in Hin' as (f & Hf & Hn & Hr).
    simpl in Hf.
    repeat (destruct Hf as [<- | Hf]; [try discriminate Hn|]);
      [|contradiction].
    unfold validate_field in Hr. simpl fname in Hr. rewrite Hp in Hr.
    simpl in Hr, Hs.
    destruct Hs as [<- | [<- | [<- | []]]]; discriminate Hr.
Qed.

Lemma enum_field_rejects_outsiders_witness :
  exists errors,
    validate no_lax 0 Appointment pending_appointment = inl errors
    /\ In ("status", NotInEnum) errors.
Proof.
  apply (proj1 (proj2 (enum_field_rejects_outsiders no_lax 0))
           pending_appointment).
  reflexivity.
Defined.



(** Validation reads the clock only to run a [utcnow] factory. *)
Lemma validate_field_clock (lax : Scalar -> Value -> option Value)
    (now1 now2 : Z) (p : Dict) (f : Field) :
  (fdefault f = DefaultFactory FactoryUtcnow -> has_key p (fname f) = true) ->
  validate_field lax now1 p f = validate_field lax now2 p f.
Proof.
  intros H. unfold validate_field.
  destruct (lookup_key p (fname f)) eqn:E; [reflexivity|].
  destruct (fdefault f) as [| |[]]; try reflexivity.
  apply has_key_lookup_key in E. rewrite H in E; [discriminate|reflexivity].
Qed.

Lemma validate_fields_clock (lax : Scalar -> Value -> option Value)
    (now1 now2 : Z) (p : Dict) (fs : list Field) :
  existsb
    (fun f =>
       match fdefault f with
       | DefaultFactory FactoryUtcnow => negb (has_key p (fname f))
       | _ => false
       end) fs = false ->
  validate_fields lax now1 fs p = validate_fields lax now2 fs p.
Proof.
  induction fs as [|f fs IH]; simpl; [reflexivity|].
  intros H. apply orb_false_iff in H as [Hf Hfs].
  rewrite (IH Hfs), (validate_field_clock lax now1 now2 p f); [reflexivity|].
  intros Hd. rewrite Hd in Hf. now apply negb_false_iff in Hf.
Qed.

Lemma reads_clock_spec (k : Kind) (p : Dict) :
  reads_clock k p = true <->
  (k = BedAssignment /\ lookup_key p "assigned_on" = None)
  \/ (k = MedicalRecord /\ lookup_key p "visit_date" = None).
Proof.
  rewrite <- !has_key_lookup_key.
  destruct k; unfold reads_clock; simpl;
    rewrite ?orb_false_r, ?negb_true_iff;
    try (split; [discriminate | intros [[? _] | [? _]]; discriminate]).
  - split; [auto | intros [[_ ?] | [? _]]; [assumption | discriminate]].
  - split; [auto | intros [[? _] | [_ ?]]; [discriminate | assumption]].
Qed.

(** C5, as the code has it. Validation is a function of the payload and of
    the reading of the clock, and the reading matters only where a timestamp
    default is taken: when a [BedAssignment] payload gives [assigned_on] and a
    [MedicalRecord] payload gives [visit_date] (and for every other model),
    validating at two readings of the clock produces the same result. *)
Theorem validate_independent_of_clock
    (lax : Scalar -> Value -> option Value) (k : Kind) (payload : Dict)
    (now1 now2 : Z) :
  (k = BedAssignment -> lookup_key payload "assigned_on" <> None) ->
  (k = MedicalRecord -> lookup_key payload "visit_date" <> None) ->
  validate lax now1 k payload = validate lax now2 k payload.
Proof.
  intros Hbed Hrec.
  assert (reads_clock k payload = false) as Hclock.
  { destruct (reads_clock k payload) eqn:E; [|reflexivity].
    apply reads_clock_spec in E as [[-> Hn] | [-> Hn]]; exfalso.
    - now apply Hbed.
    - now apply Hrec. }
  unfold validate.
  now rewrite (validate_fields_clock lax now1 now2 payload (schema k) Hclock).
Qed.

Lemma validate_independent_of_clock_witness :
  validate no_lax 0 BedAssignment (("assigned_on", VDateTime 7) :: bed_payload)
  = validate no_lax 1 BedAssignment (("assigned_on", VDateTime 7) :: bed_payload).
Proof.
  apply (validate_independent_of_clock no_lax BedAssignment
           (("assigned_on", VDateTime 7) :: bed_payload) 0 1);
    discriminate.
Defined.

(** C5, as stated, fails: the same [BedAssignment] payload validated at two
    readings of the clock gives two different records. *)
Lemma validate_depends_on_clock :
  (forall lax,
      validate lax 0 BedAssignment bed_payload
      = inr [ ("patient_id", VStr "p1"); ("ward", VStr "A")
            ; ("bed_number", VStr "12"); ("assigned_on", VDateTime 0) ])
  /\
  (forall lax,
      validate lax 1 BedAssignment bed_payload
      = inr [ ("patient_id", VStr "p1"); ("ward", VStr "A")
            ; ("bed_number", VStr "12"); ("assigned_on", VDateTime 1) ])
  /\
  VDateTime 0 <> VDateTime 1.
Proof.
  split; [|split].
  - intros lax. reflexivity.
  - intros lax. reflexivity.
  - discriminate.
Qed.

(* ===================================================================== *)
(** ** Facts about the gateway *)
(* ===================================================================== *)

Section GatewayFacts.

Variable st : Store.
Variable clk : nat -> Z.
Variable n : nat.

Lemma get_documents_connected (name : string) (filt : Dict) (limit : nat) :
  get_documents name filt limit (mkWorld (Some st) clk n)
  = (Ok (take limit (List.filter (matches filt) (collection st name))),
     mkWorld (Some st) clk n).
Proof. reflexivity. Qed.

Lemma get_documents_offline (name : string) (filt : Dict) (limit : nat) :
  get_documents name filt limit (mkWorld None clk n)
  = (Raise StoreUnavailable, mkWorld None clk n).
Proof. reflexivity. Qed.

Lemma collection_store_with (name : string) (doc : Dict) :
  collection (store_with st name doc) name
  = (collection st name ++ [doc])%list.
Proof. unfold collection at 1, store_with. simpl. now rewrite lookup_insert_eq. Qed.


End GatewayFacts.

Lemma matches_one_str (key s : string) (doc : Dict) :
  matches [(key, VStr s)] doc = true <-> lookup_key doc key = Some (VStr s).
Proof.
  unfold matches. simpl. rewrite andb_true_r.
  destruct (lookup_key doc key) as [v|]; [|split; discriminate].
  rewrite value_eqb_str. split; congruence.
Qed.

Lemma matches_empty (doc : Dict) : matches [] doc = true.
Proof. reflexivity. Qed.

Lemma filter_matches_empty (l : list Dict) : List.filter (matches []) l = l.
Proof.
  induction l as [|d l IH]; simpl; [reflexivity | now rewrite IH].
Qed.

(** No document with the value under the key: the filter finds nothing. *)
Lemma filter_no_match (key s : string) (l : list Dict) :
  (forall doc, In doc l -> lookup_key doc key <> Some (VStr s)) ->
  List.filter (matches [(key, VStr s)]) l = [].
Proof.
  induction l as [|d l IH]; intros H; [reflexivity|].
  cbn [List.filter].
  destruct (matches [(key, VStr s)] d) eqn:E.
  - apply matches_one_str in E. exfalso. apply (H d); [now left | exact E].
  - apply IH. intros doc Hin. apply H. now right.
Qed.

(* ===================================================================== *)
(** ** Facts about the handlers *)
(* ===================================================================== *)

Section HandlerFacts.

Variable st : Store.
Variable clk : nat -> Z.
Variable n : nat.



Lemma login_on_handle (payload : LoginRequest.t) :
  login payload (mkWorld (Some st) clk n)
  = (Raise NotImplementedError, mkWorld (Some st) clk n).
Proof. reflexivity. Qed.

Lemma signup_on_handle (payload : SignupRequest.t) :
  signup payload (mkWorld (Some st) clk n)
  = (Raise NotImplementedError, mkWorld (Some st) clk n).
Proof. reflexivity. Qed.

Lemma list_medical_records_connected (patient_id : option string) :
  list_medical_records patient_id (mkWorld (Some st) clk n)
  = (Ok (documents
           (take 200
              (List.filter
                 (matches
                    (if truthy_str patient_id
                     then [("patient_id", of_optional_str patient_id)]
                     else []))
                 (collection st "medicalrecord")))),
     mkWorld (Some st) clk n).
Proof. reflexivity. Qed.

End HandlerFacts.

(* ===================================================================== *)
(** ** Signup and login *)
(* ===================================================================== *)

(** C3, at the failing input. With a handle, signup does not reach the
    lookup: [if not db] asks the handle for its truth value, which raises,
    and the request is answered 500 with the world as it was. No signup
    succeeds and none is answered 400. *)
Theorem signup_raises_on_handle (st : Store) (clk : nat -> Z) (n : nat)
    (registration : SignupRequest.t) :
  signup registration (mkWorld (Some st) clk n)
  = (Raise NotImplementedError, mkWorld (Some st) clk n)
  /\ status_of NotImplementedError = 500.
Proof. split; [apply signup_on_handle | reflexivity]. Qed.

(** C4, at the failing input. With a handle, login does not reach the lookup
    either: [if db] raises, and the request is answered 500, whether or not a
    user has the e-mail. No login is answered 200. *)
Theorem login_raises_on_handle (st : Store) (clk : nat -> Z) (n : nat)
    (credentials : LoginRequest.t) :
  login credentials (mkWorld (Some st) clk n)
  = (Raise NotImplementedError, mkWorld (Some st) clk n)
  /\ status_of NotImplementedError = 500.
Proof. split; [apply login_on_handle | reflexivity]. Qed.



(* ===================================================================== *)
(** ** Listing medical records *)
(* ===================================================================== *)

(** C8, as the code has it. On a connected store, without [patient_id] the
    listing is the first 200 medical records, whoever the patient; with a
    [patient_id] that is not the empty string it is the first 200 of the
    records whose [patient_id] is that string, so every record listed carries
    it, and when no record does the listing is empty and no error. *)
Theorem list_medical_records_filter (st : Store) (clk : nat -> Z) (n : nat)
    (X : string) :
  X <> "" ->
  (list_medical_records None (mkWorld (Some st) clk n)
   = (Ok (documents (take 200 (collection st "medicalrecord"))),
      mkWorld (Some st) clk n)
   /\ (length (take 200 (collection st "medicalrecord")) <= 200)%nat)
  /\
  exists docs,
    list_medical_records (Some X) (mkWorld (Some st) clk n)
    = (Ok (documents docs), mkWorld (Some st) clk n)
    /\ docs
       = take 200
           (List.filter (matches [("patient_id", VStr X)])
              (collection st "medicalrecord"))
    /\ (length docs <= 200)%nat
    /\ (forall doc, In doc docs ->
          In doc (collection st "medicalrecord")
          /\ lookup_key doc "patient_id" = Some (VStr X))
    /\ ((forall doc, In doc (collection st "medicalrecord") ->
           lookup_key doc "patient_id" <> Some (VStr X)) ->
        docs = []).
Proof.
  intros HX. split.
  - rewrite list_medical_records_connected. cbn [truthy_str].
    rewrite filter_matches_empty. split; [reflexivity|].
    rewrite length_take. lia.
  - eexists. split; [|split; [reflexivity|]].
    + rewrite list_medical_records_connected. cbn [truthy_str of_optional_str].
      apply String.eqb_neq in HX. rewrite HX. reflexivity.
    + split; [rewrite length_take; lia|]. split.
      * intros doc Hin.
        assert (In doc (List.filter (matches [("patient_id", VStr X)])
                          (collection st "medicalrecord"))) as Hf.
        { apply list_elem_of_In. apply list_elem_of_In in Hin.
          eapply subseteq_take, Hin. }
        apply filter_In in Hf as [H1 H2].
        split; [exact H1 | now apply matches_one_str].
      * intros Hnone. now rewrite filter_no_match.
Qed.

Lemma list_medical_records_filter_witness :
  (list_medical_records None ehr_world
   = (Ok (documents (take 200 (collection ehr_store "medicalrecord"))),
      ehr_world)
   /\ (length (take 200 (collection ehr_store "medicalrecord")) <= 200)%nat)
  /\
  exists docs,
    list_medical_records (Some "p2") ehr_world
    = (Ok (documents docs), ehr_world)
    /\ docs
       = take 200
           (List.filter (matches [("patient_id", VStr "p2")])
              (collection ehr_store "medicalrecord"))
    /\ (length docs <= 200)%nat
    /\ (forall doc, In doc docs ->
          In doc (collection ehr_store "medicalrecord")
          /\ lookup_key doc "patient_id" = Some (VStr "p2"))
    /\ ((forall doc, In doc (collection ehr_store "medicalrecord") ->
           lookup_key doc "patient_id" <> Some (VStr "p2")) ->
        docs = []).
Proof.
  apply (list_medical_records_filter ehr_store clock0 0%nat "p2").
  discriminate.
Defined.

(** C8, as stated, fails for the empty string: asked for [patient_id=""], the
    listing returns the record of patient "p1". *)
Lemma list_medical_records_empty_id_lists_others :
  list_medical_records (Some "") ehr_world
  = (Ok (documents [record_of "p1"]), ehr_world)
  /\ lookup_key (record_of "p1") "patient_id" = Some (VStr "p1")
  /\ String.eqb "p1" "" = false.
Proof. split; [|split]; reflexivity. Qed.

(** C10. An empty [patient_id] is handled as an absent one: the filter is
    empty and the listing is the first 200 records of all patients, among
    them records whose [patient_id] is not the empty string. *)
Theorem empty_patient_id_is_no_filter :
  (forall w, list_medical_records (Some "") w = list_medical_records None w)
  /\
  (forall st clk n,
      list_medical_records (Some "") (mkWorld (Some st) clk n)
      = (Ok (documents (take 200 (collection st "medicalrecord"))),
         mkWorld (Some st) clk n))
  /\
  list_medical_records (Some "") ehr_world
  = (Ok (documents [[("patient_id", VStr "p1"); ("_id", VStr "0")]]),
     ehr_world).
Proof.
  split; [|split].
  - intros w. reflexivity.
  - intros st clk n. rewrite list_medical_records_connected.
    cbn [truthy_str String.eqb negb]. now rewrite filter_matches_empty.
  - reflexivity.
Qed.

(* ===================================================================== *)
(** ** What the create routes store *)
(* ===================================================================== *)

(** X1. On each of the eleven create routes a body is stored only through its
    model: when the body validates, the validated record, with timestamps and
    identifier, is appended to the collection named by the lowercase class
    name and the identifier is answered; when it does not, the answer is the
    validation error and the store is untouched. *)
Theorem create_route_stores_validated_record
    (lax : Scalar -> Value -> option Value) (path : string) (k : Kind)
    (handler : Dict -> M Value) (body : Dict) (st : Store) (clk : nat -> Z)
    (n : nat) :
  In (path, k, handler) create_routes ->
  (forall record,
      validate lax (clk n) k body = inr record ->
      post lax k handler body (mkWorld (Some st) clk n)
      = (Ok (VDict [("id", VStr (object_id (next_id st)))]),
         mkWorld
           (Some (store_with st (collection_name k)
                    (stored_document record (clk (S n))
                       (object_id (next_id st)))))
           clk (S (S n))))
  /\
  (forall errors,
      validate lax (clk n) k body = inl errors ->
      post lax k handler body (mkWorld (Some st) clk n)
      = (Raise (RequestValidationError errors), mkWorld (Some st) clk (S n))).
Proof.
  intros Hroute. simpl in Hroute.
  repeat (destruct Hroute as [Heq | Hroute];
          [inversion Heq; subst; clear Heq;
           split; intros r Hr;
           unfold post, request_body, mbind, M_bind, utcnow;
           cbn [db utc tick]; rewrite Hr; reflexivity|]).
  contradiction.
Qed.

Lemma create_route_stores_validated_record_witness :
  post no_lax Medicine add_medicine paracetamol fresh_world
  = (Ok (VDict [("id", VStr (object_id (next_id empty_store)))]),
     mkWorld
       (Some (store_with empty_store (collection_name Medicine)
                (stored_document
                   [ ("name", VStr "Paracetamol"); ("sku", VNone)
                   ; ("description", VNone); ("quantity", VInt 0)
                   ; ("price", VFloat float_zero); ("expires_on", VNone) ]
                   (clock0 1%nat) (object_id (next_id empty_store)))))
       clock0 2%nat).
Proof.
  apply (proj1 (create_route_stores_validated_record no_lax
                  "/pharmacy/medicines" Medicine add_medicine paracetamol
                  empty_store clock0 0%nat ltac:(simpl; tauto))).
  reflexivity.
Defined.

(* ===================================================================== *)
(** ** The diagnostic route *)
(* ===================================================================== *)

Lemma str_prefix_short (n : nat) (s : string) :
  (str_len s <= n)%nat -> str_prefix n s = s.
Proof.
  revert n. induction s as [|c s IH]; intros n; simpl; [reflexivity|].
  destruct (is_continuation c).
  - intros H. now rewrite IH.
  - destruct n as [|n']; [lia|]. intros H. rewrite IH; [reflexivity | lia].
Qed.

(** X2. The diagnostic route never fails and never changes anything: in
    every world, whatever the environment and the driver do, it answers a
    body with the six keys of the report, "backend" is "✅ Running", at most
    20 collection names are listed, and "connection_status" is "Connected"
    exactly when there is a handle and the driver could list its
    collections. *)
Theorem test_database_never_raises
    (getenv : string -> option string)
    (list_collection_names : Store -> string + list string) (w : World) :
  exists response names,
    test_database getenv list_collection_names w = (Ok (VDict response), w)
    /\ map fst response
       = [ "backend"; "database"; "database_url"; "database_name"
         ; "connection_status"; "collections" ]
    /\ lookup_key response "backend" = Some (VStr "✅ Running")
    /\ lookup_key response "collections" = Some (VList (map VStr names))
    /\ (length names <= 20)%nat
    /\ (lookup_key response "connection_status" = Some (VStr "Connected")
        <-> exists handle listed,
              db w = Some handle
              /\ list_collection_names handle = inr listed
              /\ names = take 20 listed).
Proof.
  destruct w as [[st|] clk n];
    unfold test_database, mbind, M_bind, get_db, mret, M_ret; cbn [db].
  - destruct (list_collection_names st) as [e|listed] eqn:E.
    + eexists _, []. split; [reflexivity|].
      repeat split; simpl; try lia; try discriminate.
      intros (handle & listed & Hh & Hl & _).
      inversion Hh; subst handle. congruence.
    + eexists _, (take 20 listed). split; [reflexivity|].
      repeat split; simpl; try (rewrite length_take; lia).
      intros _. exists st, listed. auto.
  - eexists _, []. split; [reflexivity|].
    repeat split; simpl; try lia; try discriminate.
    intros (handle & listed & Hh & _). discriminate Hh.
Qed.

(** X3. What the diagnostic route says of the environment. Without a handle
    it reports "❌ Not Initialized" and says "❌ Not Set" for both variables,
    whatever the environment holds. With a handle, "database_url" is
    "✅ Set" when [DATABASE_URL] is set to a non-empty text and "❌ Not Set"
    otherwise (also when it is set to the empty text), and "database_name"
    is the value of [DATABASE_NAME] when that is non-empty and "❌ Not Set"
    otherwise. *)
Theorem test_database_environment
    (getenv : string -> option string)
    (list_collection_names : Store -> string + list string)
    (clk : nat -> Z) (n : nat) :
  test_database getenv list_collection_names (mkWorld None clk n)
  = (Ok (VDict
           [ ("backend", VStr "✅ Running")
           ; ("database", VStr "❌ Not Initialized")
           ; ("database_url", VStr "❌ Not Set")
           ; ("database_name", VStr "❌ Not Set")
           ; ("connection_status", VStr "Not Connected")
           ; ("collections", VList []) ]),
     mkWorld None clk n)
  /\
  forall handle, exists response,
    test_database getenv list_collection_names (mkWorld (Some handle) clk n)
    = (Ok (VDict response), mkWorld (Some handle) clk n)
    /\ (forall url, getenv "DATABASE_URL" = Some url -> url <> "" ->
          lookup_key response "database_url" = Some (VStr "✅ Set"))
    /\ (getenv "DATABASE_URL" = None \/ getenv "DATABASE_URL" = Some "" ->
          lookup_key response "database_url" = Some (VStr "❌ Not Set"))
    /\ (forall name, getenv "DATABASE_NAME" = Some name -> name <> "" ->
          lookup_key response "database_name" = Some (VStr name))
    /\ (getenv "DATABASE_NAME" = None \/ getenv "DATABASE_NAME" = Some "" ->
          lookup_key response "database_name" = Some (VStr "❌ Not Set")).
Proof.
  split; [reflexivity|].
  intros handle.
  unfold test_database, mbind, M_bind, get_db, mret, M_ret; cbn [db].
  eexists. split; [reflexivity|].
  destruct (list_collection_names handle) as [e|listed]; simpl.
  all: repeat split.
  all: try (intros v Hv Hne; rewrite Hv; simpl;
            apply String.eqb_neq in Hne; now rewrite Hne).
  all: intros [Hv | Hv]; rewrite Hv; reflexivity.
Qed.

Lemma str_len_app (a b : string) :
  str_len (a ++ b) = (str_len a + str_len b)%nat.
Proof.
  induction a as [|c a IH]; [reflexivity|].
  change (String c a ++ b)%string with (String c (a ++ b)).
  simpl. rewrite IH. now destruct (is_continuation c).
Qed.

Lemma str_prefix_len_exact (n : nat) (s : string) :
  str_len (str_prefix n s) = Nat.min n (str_len s).
Proof.
  revert n. induction s as [|c s IH]; intros n; simpl;
    [now rewrite Nat.min_0_r|].
  destruct (is_continuation c) eqn:E; simpl.
  - rewrite E. apply IH.
  - destruct n as [|n']; simpl; [reflexivity|]. rewrite E.
    now rewrite IH.
Qed.

(** What [str_prefix] leaves out starts at the start of a character. *)
Lemma str_prefix_cut (n : nat) (s : string) :
  exists rest,
    s = (str_prefix n s ++ rest)%string /\ at_boundary rest = true.
Proof.
  revert n. induction s as [|c s IH]; intros n; simpl.
  - exists EmptyString. split; reflexivity.
  - destruct (is_continuation c) eqn:E.
    + destruct (IH n) as (rest & Hrest & Hcut). exists rest. split; [|exact Hcut].
      change (String c s = String c (str_prefix n s ++ rest)%string).
      f_equal. exact Hrest.
    + destruct n as [|n'].
      * exists (String c s). split; [reflexivity|]. simpl. now rewrite E.
      * destruct (IH n') as (rest & Hrest & Hcut). exists rest.
        split; [|exact Hcut].
        change (String c s = String c (str_prefix n' s ++ rest)%string).
        f_equal. exact Hrest.
Qed.

(** X4. When the driver fails to list the collections, the diagnostic route
    still answers: "database" is "⚠️ Connected but Error: " followed by the
    first 100 characters of the exception's text, the status stays
    "Not Connected" and no collection is listed. The text shown is cut from
    the start of the exception's text at the start of a character, and has
    100 characters when the text has more than 100 and all of them
    otherwise. *)
Theorem test_database_listing_error
    (getenv : string -> option string)
    (list_collection_names : Store -> string + list string)
    (handle : Store) (clk : nat -> Z) (n : nat) (text : string) :
  list_collection_names handle = inl text ->
  exists shown response,
    test_database getenv list_collection_names (mkWorld (Some handle) clk n)
    = (Ok (VDict response), mkWorld (Some handle) clk n)
    /\ lookup_key response "database"
       = Some (VStr ("⚠️ Connected but Error: " ++ shown))
    /\ lookup_key response "connection_status" = Some (VStr "Not Connected")
    /\ lookup_key response "collections" = Some (VList [])
    /\ (exists rest,
          text = (shown ++ rest)%string /\ at_boundary rest = true)
    /\ str_len shown = Nat.min 100 (str_len text)
    /\ ((str_len text <= 100)%nat -> shown = text)
    /\ ((100 < str_len text)%nat -> str_len shown = 100%nat).
Proof.
  intros Hfail.
  exists (str_prefix 100 text).
  unfold test_database, mbind, M_bind, get_db, mret, M_ret; cbn [db].
  rewrite Hfail. eexists. split; [reflexivity|].
  split; [reflexivity|]. split; [reflexivity|]. split; [reflexivity|].
  split; [apply str_prefix_cut|].
  split; [apply str_prefix_len_exact|].
  split; [apply str_prefix_short|].
  intros Hlong. rewrite str_prefix_len_exact. lia.
Qed.

Lemma test_database_listing_error_witness :
  exists shown response,
    test_database (fun _ => None) (unreachable long_text) fresh_world
    = (Ok (VDict response), fresh_world)
    /\ lookup_key response "database"
       = Some (VStr ("⚠️ Connected but Error: " ++ shown))
    /\ lookup_key response "connection_status" = Some (VStr "Not Connected")
    /\ lookup_key response "collections" = Some (VList [])
    /\ (exists rest,
          long_text = (shown ++ rest)%string /\ at_boundary rest = true)
    /\ str_len shown = Nat.min 100 (str_len long_text)
    /\ ((str_len long_text <= 100)%nat -> shown = long_text)
    /\ ((100 < str_len long_text)%nat -> str_len shown = 100%nat).
Proof.
  apply (test_database_listing_error (fun _ => None) (unreachable long_text)
           empty_store clock0 0%nat long_text).
  reflexivity.
Defined.

Lemma test_database_environment_witness :
  exists response,
    test_database half_set_env names_of_store fresh_world
    = (Ok (VDict response), fresh_world)
    /\ lookup_key response "database_url" = Some (VStr "✅ Set")
    /\ lookup_key response "database_name" = Some (VStr "❌ Not Set").
Proof.
  destruct (proj2 (test_database_environment half_set_env names_of_store
                     clock0 0%nat) empty_store)
    as (response & Hrun & Hurl & _ & _ & Hname).
  exists response. split; [exact Hrun|]. split.
  - apply (Hurl "mongodb://localhost:27017"); [reflexivity | discriminate].
  - apply Hname. right. reflexivity.
Defined.

(* ===================================================================== *)
(** ** More facts about validation *)
(* ===================================================================== *)

Lemma schema_names_nodup (k : Kind) : NoDup (map fname (schema k)).
Proof.
  apply (bool_decide_unpack _). destruct k; vm_compute; exact I.
Qed.

(** No model declares a field under a key the gateway writes. *)
Lemma schema_names_not_gateway (k : Kind) (f : Field) :
  In f (schema k) -> ~ In (fname f) gateway_keys.
Proof.
  intros Hf Hk.
  assert (forallb (fun g => negb (existsb (String.eqb (fname g)) gateway_keys))
            (schema k) = true) as Hall by (destruct k; reflexivity).
  rewrite forallb_forall in Hall. specialize (Hall f Hf).
  apply negb_true_iff in Hall.
  apply existsb_eqb_In in Hk. congruence.
Qed.

Section ValidationFacts3.

Variable lax : Scalar -> Value -> option Value.
Variable now : Z.

(** Validation looks a payload up under the declared names only. *)
Lemma validate_fields_agree (fs : list Field) (p p' : Dict) :
  (forall f, In f fs -> lookup_key p (fname f) = lookup_key p' (fname f)) ->
  validate_fields lax now fs p = validate_fields lax now fs p'.
Proof.
  induction fs as [|f fs IH]; intros H; simpl; [reflexivity|].
  rewrite IH by (intros g Hg; apply H; now right).
  unfold validate_field. rewrite (H f) by now left. reflexivity.
Qed.

Lemma accepted_keys (fs : list Field) (p rec : Dict) :
  Forall2
    (fun f kv => fst kv = fname f /\ validate_field lax now p f = inr (snd kv))
    fs rec ->
  map fst rec = map fname fs.
Proof.
  induction 1 as [|f kv fs rec [Hk _] _ IH]; simpl; [reflexivity|].
  now rewrite Hk, IH.
Qed.

Lemma lookup_key_absent (d : Dict) (k : string) :
  ~ In k (map fst d) -> lookup_key d k = None.
Proof.
  induction d as [|[k' v] d IH]; simpl; [reflexivity|].
  intros H. destruct (String.eqb k' k) eqn:E.
  - apply String.eqb_eq in E. tauto.
  - apply IH. tauto.
Qed.

(** In an accepted record each declared name holds what validation made of
    the field. *)
Lemma accepted_lookup (fs : list Field) (p rec : Dict) (f : Field) :
  Forall2
    (fun f kv => fst kv = fname f /\ validate_field lax now p f = inr (snd kv))
    fs rec ->
  NoDup (map fname fs) ->
  In f fs ->
  exists v,
    validate_field lax now p f = inr v /\ lookup_key rec (fname f) = Some v.
Proof.
  induction 1 as [|g [k v] fs rec [Hk Hv] Hrest IH]; intros Hnd Hin;
    [contradiction|].
  simpl in Hk, Hv. subst k. inversion Hnd as [|? ? Hnot Hnd']; subst.
  simpl. destruct Hin as [<- | Hin].
  - exists v. rewrite String.eqb_refl. auto.
  - destruct (String.eqb (fname g) (fname f)) eqn:E.
    + apply String.eqb_eq in E. exfalso. apply Hnot. rewrite E.
      apply list_elem_of_In. now apply in_map.
    + now apply IH.
Qed.

Lemma validate_record_lookup (k : Kind) (p rec : Dict) (f : Field) :
  validate lax now k p = inr rec ->
  In f (schema k) ->
  exists v,
    validate_field lax now p f = inr v /\ lookup_key rec (fname f) = Some v.
Proof.
  intros Hok Hf.
  eapply accepted_lookup; eauto using validate_accepted, schema_names_nodup.
Qed.

Lemma convert_instance (s : Scalar) (v : Value) :
  is_instance s v = true -> convert lax s v = inr v.
Proof. destruct s, v; simpl; congruence. Qed.

Lemma convert_all_instances (s : Scalar) (l : list Value) :
  forallb (is_instance s) l = true -> convert_all lax s l = inr l.
Proof.
  induction l as [|v l IH]; simpl; [reflexivity|].
  intros H. apply andb_true_iff in H as [Hv Hl].
  now rewrite (convert_instance s v Hv), (IH Hl).
Qed.

Lemma check_has_type (t : FType) (v : Value) :
  has_type t v = true -> check lax t v = inr v.
Proof.
  induction t as [s|choices|elem|t IH]; simpl.
  - apply convert_instance.
  - destruct v; try discriminate. now intros ->.
  - destruct v; try discriminate. intros H.
    now rewrite convert_all_instances.
  - destruct v; auto.
Qed.

End ValidationFacts3.

(* ===================================================================== *)
(** ** Validation: what a record holds *)
(* ===================================================================== *)

(** X5. Validation reads a payload under the declared field names only: two
    payloads that agree on them validate alike, whatever other keys they
    carry, and an accepted record has exactly the declared fields, in
    declaration order. *)
Theorem validation_reads_declared_fields
    (lax : Scalar -> Value -> option Value) (now : Z) (k : Kind)
    (p p' : Dict) :
  (forall f, In f (schema k) ->
     lookup_key p (fname f) = lookup_key p' (fname f)) ->
  validate lax now k p = validate lax now k p'
  /\ forall rec, validate lax now k p = inr rec ->
       map fst rec = map fname (schema k).
Proof.
  intros Hagree. split.
  - unfold validate. now rewrite (validate_fields_agree lax now _ p p').
  - intros rec Hok. eapply accepted_keys, validate_accepted, Hok.
Qed.

Lemma validation_reads_declared_fields_witness :
  validate no_lax 0 Medicine (("dose", VStr "500mg") :: paracetamol)
  = validate no_lax 0 Medicine paracetamol
  /\ forall rec,
       validate no_lax 0 Medicine (("dose", VStr "500mg") :: paracetamol)
       = inr rec ->
       map fst rec = map fname (schema Medicine).
Proof.
  apply (validation_reads_declared_fields no_lax 0 Medicine
           (("dose", VStr "500mg") :: paracetamol) paracetamol).
  intros f Hf. simpl in Hf.
  repeat (destruct Hf as [<- | Hf]; [reflexivity|]). contradiction.
Defined.

(** X6. A body that gives none of the declared fields (the empty body, or one
    with other keys only) is refused by every model, and the errors are
    exactly the model's required fields, each reported missing, in
    declaration order; every model has at least one. *)
Theorem body_without_declared_fields_rejected
    (lax : Scalar -> Value -> option Value) (now : Z) (k : Kind) (p : Dict) :
  (forall f, In f (schema k) -> lookup_key p (fname f) = None) ->
  validate lax now k p
  = inl (map (fun name => (name, Missing)) (required_fields k))
  /\ (0 < length (required_fields k))%nat.
Proof.
  intros Hnone. split.
  - transitivity (validate lax now k []).
    + unfold validate.
      now rewrite (validate_fields_agree lax now _ p []).
    + destruct k; reflexivity.
  - destruct k; simpl; lia.
Qed.

Lemma body_without_declared_fields_rejected_witness :
  validate no_lax 0 Vital [("pulse", VInt 72)]
  = inl (map (fun name => (name, Missing)) (required_fields Vital))
  /\ (0 < length (required_fields Vital))%nat.
Proof.
  apply (body_without_declared_fields_rejected no_lax 0 Vital
           [("pulse", VInt 72)]).
  intros f Hf. simpl in Hf.
  repeat (destruct Hf as [<- | Hf]; [reflexivity|]). contradiction.
Defined.

(** X7. In an accepted record a field the payload leaves out holds its
    declared default: the default value, an empty list for
    [default_factory=list], the reading of the clock for
    [default_factory=datetime.utcnow]; a required field cannot have been left
    out. *)
Theorem absent_field_takes_default
    (lax : Scalar -> Value -> option Value) (now : Z) (k : Kind)
    (p rec : Dict) (f : Field) :
  In f (schema k) ->
  lookup_key p (fname f) = None ->
  validate lax now k p = inr rec ->
  match fdefault f with
  | Required => False
  | DefaultValue v => lookup_key rec (fname f) = Some v
  | DefaultFactory FactoryList => lookup_key rec (fname f) = Some (VList [])
  | DefaultFactory FactoryUtcnow =>
      lookup_key rec (fname f) = Some (VDateTime now)
  end.
Proof.
  intros Hf Habsent Hok.
  destruct (validate_record_lookup lax now k p rec f Hok Hf) as (v & Hv & Hrec).
  unfold validate_field in Hv. rewrite Habsent in Hv.
  destruct (fdefault f) as [|d|[]]; simpl in Hv; congruence.
Qed.

Lemma absent_field_takes_default_witness :
  lookup_key
    [ ("name", VStr "Gauze"); ("category", VNone); ("quantity", VInt 0)
    ; ("threshold", VInt 5); ("location", VNone) ] "threshold"
  = Some (VInt 5).
Proof.
  apply (absent_field_takes_default no_lax 0 InventoryItem
           [("name", VStr "Gauze")] _
           (mkField "threshold" (TScalar TInt) (DefaultValue (VInt 5)))).
  - simpl. tauto.
  - reflexivity.
  - reflexivity.
Defined.

(** X8. In an accepted record a field the payload gives with a value of the
    annotated type holds that value unchanged. In particular an explicit
    [None] for an [Optional] field is kept and does not give way to the
    default: a patient sent with country [None] has no country, not
    "Ethiopia". *)
Theorem given_field_kept
    (lax : Scalar -> Value -> option Value) (now : Z) (k : Kind)
    (p rec : Dict) (f : Field) (v : Value) :
  In f (schema k) ->
  lookup_key p (fname f) = Some v ->
  has_type (ftype f) v = true ->
  validate lax now k p = inr rec ->
  lookup_key rec (fname f) = Some v.
Proof.
  intros Hf Hgiven Htype Hok.
  destruct (validate_record_lookup lax now k p rec f Hok Hf)
    as (v' & Hv & Hrec).
  unfold validate_field in Hv.
  rewrite Hgiven, (check_has_type lax _ _ Htype) in Hv. congruence.
Qed.

Lemma given_field_kept_witness :
  lookup_key
    [ ("user_id", VNone); ("first_name", VStr "Abebe")
    ; ("last_name", VStr "Kebede"); ("gender", VStr "male")
    ; ("dob", VNone); ("blood_group", VNone); ("address", VNone)
    ; ("city", VNone); ("country", VNone)
    ; ("emergency_contact", VNone); ("medical_history", VList [])
    ; ("allergies", VList []) ] "country"
  = Some VNone.
Proof.
  apply (given_field_kept no_lax 0 Patient (("country", VNone) :: abebe) _
           (mkField "country" (opt str) (DefaultValue (VStr "Ethiopia")))
           VNone).
  - simpl. tauto.
  - reflexivity.
  - reflexivity.
  - reflexivity.
Defined.

(* ===================================================================== *)
(** ** Facts about stored documents and the routes *)
(* ===================================================================== *)

Lemma lookup_dict_set (d : Dict) (k : string) (v : Value) (k' : string) :
  lookup_key (dict_set d k v) k'
  = if String.eqb k k' then Some v else lookup_key d k'.
Proof.
  induction d as [|[k0 v0] d IH]; simpl; [reflexivity|].
  destruct (String.eqb k0 k) eqn:E0; simpl.
  - apply String.eqb_eq in E0. subst k0.
    destruct (String.eqb k k'); reflexivity.
  - rewrite IH. destruct (String.eqb k0 k') eqn:E1; [|reflexivity].
    apply String.eqb_eq in E1. subst k'. now rewrite String.eqb_sym, E0.
Qed.

Lemma lookup_dict_setdefault (d : Dict) (k : string) (v : Value)
    (k' : string) :
  lookup_key (dict_setdefault d k v) k'
  = if String.eqb k k'
    then Some (match lookup_key d k with Some x => x | None => v end)
    else lookup_key d k'.
Proof.
  unfold dict_setdefault. destruct (has_key d k) eqn:E.
  - destruct (String.eqb k k') eqn:E'; [|reflexivity].
    apply String.eqb_eq in E'. subst k'.
    destruct (lookup_key d k) eqn:L; [reflexivity|].
    apply has_key_lookup_key in L. congruence.
  - rewrite lookup_dict_set. apply has_key_lookup_key in E. now rewrite E.
Qed.

Lemma lookup_stored_document (data : Dict) (now : Z) (id key : string) :
  lookup_key (stored_document data now id) key
  = if String.eqb "_id" key then Some (VStr id)
    else if String.eqb "updated_at" key
         then Some (match lookup_key data "updated_at" with
                    | Some x => x
                    | None => VDateTime now
                    end)
    else if String.eqb "created_at" key
         then Some (match lookup_key data "created_at" with
                    | Some x => x
                    | None => VDateTime now
                    end)
    else lookup_key data key.
Proof.
  unfold stored_document.
  rewrite lookup_dict_set, !lookup_dict_setdefault.
  destruct (String.eqb "_id" key); [reflexivity|].
  destruct (String.eqb "updated_at" key) eqn:E; [|reflexivity].
  reflexivity.
Qed.

Lemma lookup_stored_document_field (data : Dict) (now : Z) (id key : string) :
  ~ In key gateway_keys ->
  lookup_key (stored_document data now id) key = lookup_key data key.
Proof.
  intros H. rewrite lookup_stored_document.
  destruct (String.eqb "_id" key) eqn:E1.
  { apply String.eqb_eq in E1. subst. simpl in H. tauto. }
  destruct (String.eqb "updated_at" key) eqn:E2.
  { apply String.eqb_eq in E2. subst. simpl in H. tauto. }
  destruct (String.eqb "created_at" key) eqn:E3.
  { apply String.eqb_eq in E3. subst. simpl in H. tauto. }
  reflexivity.
Qed.

Create HintDb routes.
#[local] Hint Unfold list_patients list_doctors list_appointments
  list_medicines list_prescriptions list_lab_tests list_invoices list_vitals
  list_bed_assignments list_inventory_items list_medical_records : routes.

Section RouteFacts.

Variable lax : Scalar -> Value -> option Value.
Variable clk : nat -> Z.
Variable n : nat.

Lemma post_accepted (k : Kind) (handler : Dict -> M Value) (body record : Dict)
    (d : option Store) :
  validate lax (clk n) k body = inr record ->
  post lax k handler body (mkWorld d clk n)
  = handler record (mkWorld d clk (S n)).
Proof.
  intros H. unfold post, request_body, mbind, M_bind, utcnow.
  cbn [db utc tick]. now rewrite H.
Qed.

Lemma post_refused (k : Kind) (handler : Dict -> M Value) (body : Dict)
    (errors : FieldErrors) (d : option Store) :
  validate lax (clk n) k body = inl errors ->
  post lax k handler body (mkWorld d clk n)
  = (Raise (RequestValidationError errors), mkWorld d clk (S n)).
Proof.
  intros H. unfold post, request_body, mbind, M_bind, utcnow.
  cbn [db utc tick]. now rewrite H.
Qed.

Lemma create_handler_run (path : string) (k : Kind)
    (handler : Dict -> M Value) (record : Dict) (st : Store) :
  In (path, k, handler) create_routes ->
  handler record (mkWorld (Some st) clk n)
  = (Ok (VDict [("id", VStr (object_id (next_id st)))]),
     mkWorld
       (Some (store_with st (collection_name k)
                (stored_document record (clk n) (object_id (next_id st)))))
       clk (S n))
  /\ handler record (mkWorld None clk n)
     = (Raise StoreUnavailable, mkWorld None clk n).
Proof.
  intros Hroute. simpl in Hroute.
  repeat (destruct Hroute as [Heq | Hroute];
          [inversion Heq; subst; clear Heq; split; reflexivity|]).
  contradiction.
Qed.

Lemma list_route_run (path : string) (k : Kind) (cap : nat)
    (lister : M Value) (st : Store) :
  In (path, k, cap, lister) list_routes ->
  lister (mkWorld (Some st) clk n)
  = (Ok (documents (take cap (collection st (collection_name k)))),
     mkWorld (Some st) clk n)
  /\ lister (mkWorld None clk n)
     = (Raise StoreUnavailable, mkWorld None clk n)
  /\ (cap = 100 \/ cap = 200)%nat.
Proof.
  intros Hroute. simpl in Hroute.
  repeat (destruct Hroute as [Heq | Hroute];
          [inversion Heq; subst; clear Heq;
           split; [|split; [reflexivity | auto]];
           autounfold with routes;
           unfold fmap, M_fmap, get_documents, mbind, M_bind, get_db;
           cbn [db truthy_str collection_name];
           now rewrite filter_matches_empty|]).
  contradiction.
Qed.

End RouteFacts.

(* ===================================================================== *)
(** ** The CRUD routes *)
(* ===================================================================== *)

(** X10. A list route reads and never writes: the world is returned as it
    was. With a handle it answers documents of its model's collection, each
    at most as often as the collection holds it, as many as the collection
    has up to the route's limit (100 or 200); when the collection is within
    the limit, they are all its documents. Without a handle it fails with
    the gateway's error, a 500. *)
Theorem list_route_capped (path : string) (k : Kind) (cap : nat)
    (lister : M Value) (w : World) :
  In (path, k, cap, lister) list_routes ->
  snd (lister w) = w
  /\ (cap = 100 \/ cap = 200)%nat
  /\ (db w = None ->
      fst (lister w) = Raise StoreUnavailable
      /\ status_of StoreUnavailable = 500)
  /\ (forall st, db w = Some st ->
        exists docs,
          fst (lister w) = Ok (documents docs)
          /\ docs ⊆+ collection st (collection_name k)
          /\ length docs
             = Nat.min cap (length (collection st (collection_name k)))
          /\ ((length (collection st (collection_name k)) <= cap)%nat ->
              docs ≡ₚ collection st (collection_name k))).
Proof.
  intros Hroute. destruct w as [[st|] clk n].
  - destruct (list_route_run clk n path k cap lister st Hroute)
      as (Hrun & _ & Hcap).
    rewrite Hrun. cbn [fst snd db].
    split; [reflexivity|]. split; [exact Hcap|]. split; [discriminate|].
    intros st' Hst. inversion Hst; subst st'.
    eexists. split; [reflexivity|].
    split; [apply sublist_submseteq, sublist_take|].
    split; [apply length_take|].
    intros Hfits. now rewrite take_ge.
  - destruct (list_route_run clk n path k cap lister empty_store Hroute)
      as (_ & Hrun & Hcap).
    rewrite Hrun. cbn [fst snd db].
    split; [reflexivity|]. split; [exact Hcap|].
    split; [auto | discriminate].
Qed.

Lemma list_route_capped_witness :
  snd (list_medicines fresh_world) = fresh_world
  /\ (200 = 100 \/ 200 = 200)%nat
  /\ (db fresh_world = None ->
      fst (list_medicines fresh_world) = Raise StoreUnavailable
      /\ status_of StoreUnavailable = 500)
  /\ (forall st, db fresh_world = Some st ->
        exists docs,
          fst (list_medicines fresh_world) = Ok (documents docs)
          /\ docs ⊆+ collection st (collection_name Medicine)
          /\ length docs
             = Nat.min 200 (length (collection st (collection_name Medicine)))
          /\ ((length (collection st (collection_name Medicine)) <= 200)%nat ->
              docs ≡ₚ collection st (collection_name Medicine))).
Proof.
  apply (list_route_capped "/pharmacy/medicines" Medicine 200 list_medicines
           fresh_world).
  simpl. tauto.
Defined.

(** X11. Create, then list, on the two routes of one path. When the
    collection held fewer documents than the list route's limit, the listing
    after a successful create has one document more than the collection had:
    every document that was there, and a document that holds every field of
    the validated record. *)
Theorem create_then_list
    (lax : Scalar -> Value -> option Value) (path : string) (k : Kind)
    (handler : Dict -> M Value) (cap : nat) (lister : M Value)
    (body record : Dict) (st : Store) (clk : nat -> Z) (n : nat) :
  In (path, k, handler) create_routes ->
  In (path, k, cap, lister) list_routes ->
  validate lax (clk n) k body = inr record ->
  (length (collection st (collection_name k)) < cap)%nat ->
  exists id w1 docs doc,
    post lax k handler body (mkWorld (Some st) clk n)
    = (Ok (VDict [("id", VStr id)]), w1)
    /\ fst (lister w1) = Ok (documents docs)
    /\ length docs = S (length (collection st (collection_name k)))
    /\ (forall old, In old (collection st (collection_name k)) ->
          In old docs)
    /\ In doc docs
    /\ (forall f, In f (schema k) ->
          lookup_key doc (fname f) = lookup_key record (fname f)).
Proof.
  intros Hcreate Hlist Hok Hroom.
  exists (object_id (next_id st)),
    (mkWorld
       (Some (store_with st (collection_name k)
                (stored_document record (clk (S n)) (object_id (next_id st)))))
       clk (S (S n))),
    (collection st (collection_name k)
     ++ [stored_document record (clk (S n)) (object_id (next_id st))])%list,
    (stored_document record (clk (S n)) (object_id (next_id st))).
  split.
  { rewrite (post_accepted lax clk n k handler body record _ Hok).
    exact (proj1 (create_handler_run clk (S n) path k handler record st
                    Hcreate)). }
  split.
  { rewrite (proj1 (list_route_run clk (S (S n)) path k cap lister _ Hlist)).
    cbn [fst]. rewrite collection_store_with, take_ge; [reflexivity|].
    rewrite length_app. simpl. lia. }
  split; [rewrite length_app; simpl; lia|].
  split; [intros old Hold; apply in_or_app; now left|].
  split; [apply in_or_app; right; now left|].
  intros f Hf. apply lookup_stored_document_field.
  exact (schema_names_not_gateway k f Hf).
Qed.

Lemma create_then_list_witness :
  exists id w1 docs doc,
    post no_lax Patient create_patient abebe fresh_world
    = (Ok (VDict [("id", VStr id)]), w1)
    /\ fst (list_patients w1) = Ok (documents docs)
    /\ length docs = S (length (collection empty_store (collection_name Patient)))
    /\ (forall old, In old (collection empty_store (collection_name Patient)) ->
          In old docs)
    /\ In doc docs
    /\ (forall f, In f (schema Patient) ->
          lookup_key doc (fname f) = lookup_key abebe_record (fname f)).
Proof.
  apply (create_then_list no_lax "/patients" Patient create_patient
           100 list_patients abebe abebe_record empty_store clock0 0%nat).
  - simpl. tauto.
  - simpl. tauto.
  - reflexivity.
  - vm_compute. lia.
Defined.

(** X12. Validation comes before the store. Without a handle a create route
    answers a body that does not validate with the validation error (422),
    and one that validates with the gateway's error (500); nothing is stored
    either way. *)
Theorem create_route_offline
    (lax : Scalar -> Value -> option Value) (path : string) (k : Kind)
    (handler : Dict -> M Value) (body : Dict) (clk : nat -> Z) (n : nat) :
  In (path, k, handler) create_routes ->
  exists e w1,
    post lax k handler body (mkWorld None clk n) = (Raise e, w1)
    /\ db w1 = None
    /\ (forall errors,
          validate lax (clk n) k body = inl errors ->
          e = RequestValidationError errors /\ status_of e = 422)
    /\ (forall record,
          validate lax (clk n) k body = inr record ->
          e = StoreUnavailable /\ status_of e = 500).
Proof.
  intros Hroute.
  destruct (validate lax (clk n) k body) as [errors|record] eqn:E.
  - exists (RequestValidationError errors), (mkWorld None clk (S n)).
    split; [now apply post_refused|]. split; [reflexivity|].
    split; [intros ? [= <-]; auto | discriminate].
  - exists StoreUnavailable, (mkWorld None clk (S n)).
    split.
    { rewrite (post_accepted lax clk n k handler body record _ E).
      exact (proj2 (create_handler_run clk (S n) path k handler record
                      empty_store Hroute)). }
    split; [reflexivity|]. split; [discriminate | auto].
Qed.

Lemma create_route_offline_witness :
  exists e w1,
    post no_lax Medicine add_medicine paracetamol offline_world = (Raise e, w1)
    /\ db w1 = None
    /\ (forall errors,
          validate no_lax (clock0 0%nat) Medicine paracetamol = inl errors ->
          e = RequestValidationError errors /\ status_of e = 422)
    /\ (forall record,
          validate no_lax (clock0 0%nat) Medicine paracetamol = inr record ->
          e = StoreUnavailable /\ status_of e = 500).
Proof.
  apply (create_route_offline no_lax "/pharmacy/medicines" Medicine
           add_medicine paracetamol clock0 0%nat).
  simpl. tauto.
Defined.

(* ===================================================================== *)
(** ** Medical records: add, then list by patient *)
(* ===================================================================== *)

(** X17. After a medical record for patient [X] (not the empty string) is
    added, and provided fewer than 200 records of [X] were stored before, the
    listing for [X] contains a document that holds every field of the
    validated record, and every record of [X] that was stored before; the
    listing for any other patient does not contain the new document. *)
Theorem add_medical_record_then_filter
    (lax : Scalar -> Value -> option Value) (body record : Dict)
    (st : Store) (clk : nat -> Z) (n : nat) (X : string) :
  X <> "" ->
  validate lax (clk n) MedicalRecord body = inr record ->
  lookup_key record "patient_id" = Some (VStr X) ->
  (length (List.filter (matches [("patient_id", VStr X)])
             (collection st "medicalrecord")) < 200)%nat ->
  exists id w1 docs doc,
    post lax MedicalRecord add_medical_record body (mkWorld (Some st) clk n)
    = (Ok (VDict [("id", VStr id)]), w1)
    /\ fst (list_medical_records (Some X) w1) = Ok (documents docs)
    /\ In doc docs
    /\ (forall f, In f (schema MedicalRecord) ->
          lookup_key doc (fname f) = lookup_key record (fname f))
    /\ (forall old, In old (collection st "medicalrecord") ->
          lookup_key old "patient_id" = Some (VStr X) -> In old docs)
    /\ (forall Y, Y <> "" -> Y <> X ->
          exists others,
            fst (list_medical_records (Some Y) w1) = Ok (documents others)
            /\ ~ In doc others).
Proof.
  intros HX Hok Hpatient Hroom.
  pose (doc := stored_document record (clk (S n)) (object_id (next_id st))).
  assert (lookup_key doc "patient_id" = Some (VStr X)) as Hdoc.
  { unfold doc. rewrite lookup_stored_document_field; [exact Hpatient|].
    simpl. intuition discriminate. }
  exists (object_id (next_id st)),
    (mkWorld (Some (store_with st "medicalrecord" doc)) clk (S (S n))),
    (List.filter (matches [("patient_id", VStr X)])
       (collection st "medicalrecord") ++ [doc])%list,
    doc.
  split.
  { rewrite (post_accepted lax clk n MedicalRecord add_medical_record body
               record _ Hok).
    reflexivity. }
  split.
  { rewrite list_medical_records_connected.
    cbn [truthy_str of_optional_str fst].
    apply String.eqb_neq in HX. rewrite HX. cbn [negb].
    rewrite collection_store_with, List.filter_app. cbn [List.filter].
    rewrite (proj2 (matches_one_str "patient_id" X _) Hdoc).
    rewrite take_ge; [reflexivity|].
    rewrite length_app. simpl. lia. }
  split; [apply in_or_app; right; now left|].
  split.
  { intros f Hf. apply lookup_stored_document_field.
    exact (schema_names_not_gateway MedicalRecord f Hf). }
  split.
  { intros old Hold Hmine. apply in_or_app. left.
    apply filter_In. split; [exact Hold | now apply matches_one_str]. }
  intros Y HY Hne.
  eexists. split.
  { rewrite list_medical_records_connected.
    cbn [truthy_str of_optional_str fst].
    apply String.eqb_neq in HY. rewrite HY. cbn [negb]. reflexivity. }
  intros Hin.
  apply list_elem_of_In, (subseteq_take 200), list_elem_of_In in Hin.
  apply filter_In in Hin as [_ Hm]. apply matches_one_str in Hm.
  congruence.
Qed.

Lemma add_medical_record_then_filter_witness :
  exists id w1 docs doc,
    post no_lax MedicalRecord add_medical_record
      [("patient_id", VStr "p2")] ehr_world
    = (Ok (VDict [("id", VStr id)]), w1)
    /\ fst (list_medical_records (Some "p2") w1) = Ok (documents docs)
    /\ In doc docs
    /\ (forall f, In f (schema MedicalRecord) ->
          lookup_key doc (fname f)
          = lookup_key
              [ ("patient_id", VStr "p2"); ("visit_date", VDateTime 0)
              ; ("complaints", VNone); ("diagnosis", VNone)
              ; ("treatment", VNone); ("documents", VList []) ] (fname f))
    /\ (forall old, In old (collection ehr_store "medicalrecord") ->
          lookup_key old "patient_id" = Some (VStr "p2") -> In old docs)
    /\ (forall Y, Y <> "" -> Y <> "p2" ->
          exists others,
            fst (list_medical_records (Some Y) w1) = Ok (documents others)
            /\ ~ In doc others).
Proof.
  apply (add_medical_record_then_filter no_lax [("patient_id", VStr "p2")]
           [ ("patient_id", VStr "p2"); ("visit_date", VDateTime 0)
           ; ("complaints", VNone); ("diagnosis", VNone)
           ; ("treatment", VNone); ("documents", VList []) ]
           ehr_store clock0 0%nat "p2").
  - discriminate.
  - reflexivity.
  - reflexivity.
  - vm_compute. lia.
Defined.

(* ===================================================================== *)
(** ** What gets persisted *)
(* ===================================================================== *)





